(** * Payment reconciliation core of the e-learning platform

    A shallow embedding of the FedaPay tunnel of [e_learning_app/views.py]:
    the signature-header parser, the HMAC verification, the masks of the
    debugging line, the transaction initiation view, the callback view, the
    webhook view, the table of contents of a course and the manual payment
    correction view, together with the part of [models.py] and [forms.py]
    they touch.

    Conventions.
    - A Python [bytes] value is a [string]: one [ascii] per byte.
    - The text of an HTTP header is a [string] too: Django decodes header
      bytes as Latin-1, so every character is a code point below 256.
    - Text decoded from UTF-8 (the request body, the signing secret) is a
      list of Unicode code points, [list N].
    - The texts of the database and of JSON (transaction identifiers,
      statuses) are [string]s that are only compared, never cut.
    - A view runs in the monad [M]: it threads the world (tables, session,
      flash messages, log, trace of row writes) and may raise.  What a
      raising view has written stays written: the project does not set
      ATOMIC_REQUESTS.
    - A log line or a flash message keeps its fixed text; the text of the
      exception some of them quote is left out.
    - The request comes from a logged-in user, and the database answers:
      the only database errors are the ones the views provoke (no row, two
      rows, a broken unique constraint).
    - Each request is handled in one piece; interleaving of concurrent
      requests is outside the model. *)

From Stdlib Require Import ZArith NArith List String Ascii Bool Lia DecimalString
  DecimalZ.
Import ListNotations.

Set Warnings "-register-all".

(** ** Python text primitives used by the views *)

Module Py.

Definition code (c : ascii) : N := N_of_ascii c.

Definition in_range (lo hi : N) (c : ascii) : bool :=
  (N.leb lo (code c) && N.leb (code c) hi)%bool.

(** [str.isspace] on the code points below 256. *)
Definition isspace (c : ascii) : bool :=
  in_range 9 13 c || in_range 28 32 c
  || N.eqb (code c) 133 || N.eqb (code c) 160.

(** The white space [int()] skips around a literal: the C [isspace] set
    and, in a non-ASCII string, the Unicode spaces (133 and 160 below 256);
    the separators 28..31 are not skipped. *)
Definition int_space (c : ascii) : bool :=
  in_range 9 13 c || N.eqb (code c) 32
  || N.eqb (code c) 133 || N.eqb (code c) 160.

Definition isdigit (c : ascii) : bool := in_range 48 57 c.

(** The class [[0-9a-fA-F]] of the regular expression. *)
Definition ishex (c : ascii) : bool :=
  isdigit c || in_range 97 102 c || in_range 65 70 c.

Definition isascii (c : ascii) : bool := N.ltb (code c) 128.

Definition dquote : ascii := ascii_of_N 34.

Fixpoint lstrip_by (p : ascii -> bool) (s : string) : string :=
  match s with
  | String c s' => if p c then lstrip_by p s' else s
  | EmptyString => EmptyString
  end.

Fixpoint rstrip_by (p : ascii -> bool) (s : string) : string :=
  match s with
  | EmptyString => EmptyString
  | String c s' =>
      match rstrip_by p s' with
      | EmptyString => if p c then EmptyString else String c EmptyString
      | r => String c r
      end
  end.

Definition strip_by (p : ascii -> bool) (s : string) : string :=
  rstrip_by p (lstrip_by p s).

(** [s.strip()] *)
Definition strip (s : string) : string := strip_by isspace s.

(** [s.strip] with the double quote as its argument. *)
Definition strip_dquote (s : string) : string :=
  strip_by (Ascii.eqb dquote) s.

(** [s.partition("=")]: the text before the first "=", whether a "=" was
    found, and the text after it. *)
Fixpoint partition_eq (s : string) : string * bool * string :=
  match s with
  | EmptyString => (EmptyString, false, EmptyString)
  | String c s' =>
      if Ascii.eqb c "="%char then (EmptyString, true, s')
      else let '(k, f, v) := partition_eq s' in (String c k, f, v)
  end.

Definition is_delim (c : ascii) : bool :=
  Ascii.eqb c ";"%char || Ascii.eqb c ","%char.

(** [re.split(r"[;,]", s)]: never empty, empty fields are kept. *)
Fixpoint re_split_delims (s : string) : list string :=
  match s with
  | EmptyString => [EmptyString]
  | String c s' =>
      if is_delim c then EmptyString :: re_split_delims s'
      else match re_split_delims s' with
           | h :: t => String c h :: t
           | [] => [String c EmptyString]
           end
  end.

(** The first [n] characters of [s] when they all satisfy [p]. *)
Fixpoint take_while_n (p : ascii -> bool) (n : nat) (s : string)
  : option string :=
  match n with
  | O => Some EmptyString
  | S n' =>
      match s with
      | String c s' =>
          if p c then option_map (String c) (take_while_n p n' s') else None
      | EmptyString => None
      end
  end.

(** [re.search(r"[0-9a-fA-F]{64}", s)]: the leftmost run of 64 hex
    characters, [m.group(0)]. *)
Fixpoint re_search_hex64 (s : string) : option string :=
  match take_while_n ishex 64 s with
  | Some m => Some m
  | None =>
      match s with
      | String _ s' => re_search_hex64 s'
      | EmptyString => None
      end
  end.

(** [str.lower] on the code points below 256: A-Z and the Latin-1 capitals
    (192..222 but the multiplication sign 215) move up by 32. *)
Definition lower_char (c : ascii) : ascii :=
  if in_range 65 90 c
     || (in_range 192 222 c && negb (N.eqb (code c) 215))
  then ascii_of_N (code c + 32) else c.

Fixpoint lower (s : string) : string :=
  match s with
  | EmptyString => EmptyString
  | String c s' => String (lower_char c) (lower s')
  end.

Fixpoint forallb_str (p : ascii -> bool) (s : string) : bool :=
  match s with
  | EmptyString => true
  | String c s' => p c && forallb_str p s'
  end.

Fixpoint count_str (p : ascii -> bool) (s : string) : nat :=
  match s with
  | EmptyString => O
  | String c s' => (if p c then 1 else 0) + count_str p s'
  end.

(** Truth value of a [str]: non-empty. *)
Definition nonempty (s : string) : bool :=
  match s with EmptyString => false | _ => true end.

(** Truth value of a [str | None]. *)
Definition truthy_opt (o : option string) : bool :=
  match o with Some s => nonempty s | None => false end.

(** Default of [sys.int_max_str_digits]: [int()] refuses a decimal literal
    with more digits. *)
Definition int_max_str_digits : nat := 4300.

(** The digits of an [int()] literal after the sign: at least one digit,
    single underscores between digits only. *)
Fixpoint int_digits (s : string) (acc : Z) (after_digit : bool) : option Z :=
  match s with
  | EmptyString => if after_digit then Some acc else None
  | String c s' =>
      if isdigit c
      then int_digits s' (10 * acc + (Z.of_N (code c) - 48))%Z true
      else if Ascii.eqb c "_"%char
           then if after_digit then int_digits s' acc false else None
           else None
  end.

(** [int(s)] in base ten; [None] stands for [ValueError]. *)
Definition int (s : string) : option Z :=
  let body := strip_by int_space s in
  if Nat.ltb int_max_str_digits (count_str isdigit body) then None
  else
    match body with
    | String "-"%char d => option_map Z.opp (int_digits d 0%Z false)
    | String "+"%char d => int_digits d 0%Z false
    | d => int_digits d 0%Z false
    end.

(** [str(n)] for an [int]. *)
Definition str_of_int (z : Z) : string := NilZero.string_of_int (Z.to_int z).

End Py.

(** ** SHA-256 and HMAC, as [hashlib.sha256] and [hmac.new] compute them *)

Module Sha256.
Local Open Scope N_scope.

Definition modulus : N := 4294967296.
Definition mask : N := 4294967295.

Definition add32 (x y : N) : N := (x + y) mod modulus.
Definition rotr (n x : N) : N :=
  N.lor (N.shiftr x n) (N.land (N.shiftl x (32 - n)) mask).
Definition xor3 (x y z : N) : N := N.lxor (N.lxor x y) z.

Definition ch (x y z : N) : N :=
  N.lxor (N.land x y) (N.land (N.lxor x mask) z).
Definition maj (x y z : N) : N :=
  xor3 (N.land x y) (N.land x z) (N.land y z).
Definition big0 (x : N) : N := xor3 (rotr 2 x) (rotr 13 x) (rotr 22 x).
Definition big1 (x : N) : N := xor3 (rotr 6 x) (rotr 11 x) (rotr 25 x).
Definition small0 (x : N) : N := xor3 (rotr 7 x) (rotr 18 x) (N.shiftr x 3).
Definition small1 (x : N) : N := xor3 (rotr 17 x) (rotr 19 x) (N.shiftr x 10).

(** Round constants: the first 32 bits of the fractional parts of the cube
    roots of the first 64 primes. *)
Definition round_constants : list N := [
  1116352408; 1899447441; 3049323471; 3921009573; 961987163; 1508970993;
  2453635748; 2870763221; 3624381080; 310598401; 607225278; 1426881987;
  1925078388; 2162078206; 2614888103; 3248222580; 3835390401; 4022224774;
  264347078; 604807628; 770255983; 1249150122; 1555081692; 1996064986;
  2554220882; 2821834349; 2952996808; 3210313671; 3336571891; 3584528711;
  113926993; 338241895; 666307205; 773529912; 1294757372; 1396182291;
  1695183700; 1986661051; 2177026350; 2456956037; 2730485921; 2820302411;
  3259730800; 3345764771; 3516065817; 3600352804; 4094571909; 275423344;
  430227734; 506948616; 659060556; 883997877; 958139571; 1322822218;
  1537002063; 1747873779; 1955562222; 2024104815; 2227730452; 2361852424;
  2428436474; 2756734187; 3204031479; 3329325298 ].

Definition hash := (N * N * N * N * N * N * N * N)%type.

(** Initial hash value: square roots of the first 8 primes. *)
Definition initial : hash :=
  (1779033703, 3144134277, 1013904242, 2773480762,
   1359893119, 2600822924, 528734635, 1541459225).

(** Big-endian 32-bit words of a block of bytes. *)
Fixpoint words (bs : list N) : list N :=
  match bs with
  | b0 :: b1 :: b2 :: b3 :: rest =>
      (b0 * 16777216 + b1 * 65536 + b2 * 256 + b3) :: words rest
  | _ => []
  end.

(** The message schedule, newest word first: [n] more words are computed
    from the ones 2, 7, 15 and 16 places back. *)
Fixpoint schedule (n : nat) (back : list N) : list N :=
  match n with
  | O => back
  | S n' =>
      let wt :=
        add32 (add32 (small1 (nth 1 back 0)) (nth 6 back 0))
              (add32 (small0 (nth 14 back 0)) (nth 15 back 0)) in
      schedule n' (wt :: back)
  end.

Definition round (st : hash) (kw : N * N) : hash :=
  let '(a, b, c, d, e, f, g, h) := st in
  let t1 := add32 (add32 (add32 h (big1 e)) (add32 (ch e f g) (fst kw)))
                  (snd kw) in
  let t2 := add32 (big0 a) (maj a b c) in
  (add32 t1 t2, a, b, c, add32 d t1, e, f, g).

Definition compress (st : hash) (block : list N) : hash :=
  let sched := rev (schedule 48 (rev (words block))) in
  let '(a, b, c, d, e, f, g, h) :=
    fold_left round (combine round_constants sched) st in
  let '(a0, b0, c0, d0, e0, f0, g0, h0) := st in
  (add32 a0 a, add32 b0 b, add32 c0 c, add32 d0 d,
   add32 e0 e, add32 f0 f, add32 g0 g, add32 h0 h).

Definition be_bytes (count : nat) (x : N) : list N :=
  map (fun i => N.shiftr x (8 * N.of_nat i) mod 256) (rev (seq 0 count)).

(** The message, a 1 bit, zero bits up to 56 modulo 64 bytes, and the bit
    length on 64 bits. *)
Definition pad (msg : list N) : list N :=
  let len := N.of_nat (List.length msg) in
  let zeros := N.to_nat ((64 - (len + 9) mod 64) mod 64) in
  msg ++ 128 :: repeat 0 zeros ++ be_bytes 8 (8 * len).

Fixpoint blocks (fuel : nat) (bs : list N) : list (list N) :=
  match fuel, bs with
  | S fuel', _ :: _ => firstn 64 bs :: blocks fuel' (skipn 64 bs)
  | _, _ => []
  end.

Definition digest (msg : list N) : list N :=
  let padded := pad msg in
  let '(a, b, c, d, e, f, g, h) :=
    fold_left compress (blocks (List.length padded) padded) initial in
  flat_map (be_bytes 4) [a; b; c; d; e; f; g; h].

End Sha256.

Module Hmac.

Definition bytes_of (s : string) : list N :=
  map N_of_ascii (list_ascii_of_string s).

Definition hex_digit (n : N) : ascii :=
  if N.ltb n 10 then ascii_of_N (48 + n) else ascii_of_N (87 + n).

(** Lower-case hexadecimal, two characters a byte. *)
Definition hex (bs : list N) : string :=
  string_of_list_ascii
    (flat_map (fun b => [hex_digit (N.div b 16); hex_digit (N.modulo b 16)]) bs).

Definition block_size : nat := 64.

(** A key longer than a block is hashed first; the key is then filled
    with zero bytes to a block. *)
Definition block_key (key : list N) : list N :=
  let k :=
    if Nat.ltb block_size (List.length key) then Sha256.digest key else key in
  k ++ repeat 0%N (block_size - List.length k).

Definition sha256_mac (key msg : list N) : list N :=
  let k := block_key key in
  Sha256.digest
    (map (N.lxor 92) k ++ Sha256.digest (map (N.lxor 54) k ++ msg)).

(** [hmac.new(key, msg, hashlib.sha256).hexdigest()] *)
Definition hexdigest (key msg : string) : string :=
  hex (sha256_mac (bytes_of key) (bytes_of msg)).

End Hmac.

(** ** UTF-8, as the strict [utf-8] codec of [bytes.decode] and [str.encode] *)

Module Utf8.
Local Open Scope N_scope.

Definition between (lo hi b : N) : bool := (lo <=? b) && (b <=? hi).
Definition cont (b : N) : bool := between 128 191 b.

(** [bytes.decode("utf-8")]: overlong forms, surrogates and code points
    above 1114111 are refused; [None] stands for [UnicodeDecodeError]. *)
Fixpoint decode_bytes (bs : list N) : option (list N) :=
  match bs with
  | [] => Some []
  | b0 :: t0 =>
      if b0 <? 128 then option_map (cons b0) (decode_bytes t0)
      else if between 194 223 b0 then
        match t0 with
        | b1 :: t1 =>
            if cont b1
            then option_map (cons ((b0 - 192) * 64 + (b1 - 128)))
                            (decode_bytes t1)
            else None
        | _ => None
        end
      else if between 224 239 b0 then
        match t0 with
        | b1 :: b2 :: t2 =>
            if cont b1 && cont b2
               && (negb (b0 =? 224) || (160 <=? b1))
               && (negb (b0 =? 237) || (b1 <=? 159))
            then option_map
                   (cons ((b0 - 224) * 4096 + (b1 - 128) * 64 + (b2 - 128)))
                   (decode_bytes t2)
            else None
        | _ => None
        end
      else if between 240 244 b0 then
        match t0 with
        | b1 :: b2 :: b3 :: t3 =>
            if cont b1 && cont b2 && cont b3
               && (negb (b0 =? 240) || (144 <=? b1))
               && (negb (b0 =? 244) || (b1 <=? 143))
            then option_map
                   (cons ((b0 - 240) * 262144 + (b1 - 128) * 4096
                          + (b2 - 128) * 64 + (b3 - 128)))
                   (decode_bytes t3)
            else None
        | _ => None
        end
      else None
  end.

(** The bytes of one code point; [None] for a surrogate or a value above
    1114111 ([UnicodeEncodeError]). *)
Definition encode_point (c : N) : option (list N) :=
  if c <? 128 then Some [c]
  else if c <? 2048 then Some [192 + c / 64; 128 + c mod 64]
  else if between 55296 57343 c then None
  else if c <? 65536
       then Some [224 + c / 4096; 128 + (c / 64) mod 64; 128 + c mod 64]
  else if c <? 1114112
       then Some [240 + c / 262144; 128 + (c / 4096) mod 64;
                  128 + (c / 64) mod 64; 128 + c mod 64]
  else None.

Fixpoint encode_bytes (cs : list N) : option (list N) :=
  match cs with
  | [] => Some []
  | c :: cs' =>
      match encode_point c, encode_bytes cs' with
      | Some b, Some bs => Some (b ++ bs)
      | _, _ => None
      end
  end.

Definition to_string (bs : list N) : string :=
  string_of_list_ascii (map ascii_of_N bs).

Definition decode (payload : string) : option (list N) :=
  decode_bytes (Hmac.bytes_of payload).

Definition encode (text : list N) : option string :=
  option_map to_string (encode_bytes text).

(** The code points of a text whose characters are all below 256. *)
Definition text_of (s : string) : list N := Hmac.bytes_of s.

(** [str.isspace] on a code point. *)
Definition isspace (c : N) : bool :=
  between 9 13 c || between 28 32 c || (c =? 133) || (c =? 160)
  || (c =? 5760) || between 8192 8202 c || (c =? 8232) || (c =? 8233)
  || (c =? 8239) || (c =? 8287) || (c =? 12288).

Fixpoint lstrip (cs : list N) : list N :=
  match cs with
  | c :: cs' => if isspace c then lstrip cs' else cs
  | [] => []
  end.

(** [s.strip()] on a text. *)
Definition strip (cs : list N) : list N := rev (lstrip (rev (lstrip cs))).

End Utf8.

(** ** Exceptions, Python values and the external collaborators *)

Inductive exn :=
| ValueError | TypeError | AttributeError | UnicodeEncodeError
| JSONDecodeError | Http404 | DoesNotExist | MultipleObjectsReturned
| IntegrityError | NoReverseMatch
| ExternalError (what : string).

(** A call returns or raises. *)
Inductive outcome (A : Type) :=
| Ret (a : A)
| Exc (e : exn).
Arguments Ret {A} a.
Arguments Exc {A} e.

(** The values the views receive from [json.loads] and from the gateway
    client.  A float keeps its [repr] and its truth value.  [PObj] is an
    object that is not a [dict]: its data attributes and, when it has a
    [model_dump] method, what that method returns. *)
Inductive pyval :=
| PNone
| PBool (b : bool)
| PInt (z : Z)
| PFloat (repr : string) (nonzero : bool)
| PStr (s : string)
| PList (items : list pyval)
| PDict (entries : list (string * pyval))
| PObj (attrs : list (string * pyval)) (dump : option pyval).

Fixpoint assoc {A : Type} (k : string) (l : list (string * A)) : option A :=
  match l with
  | [] => None
  | (k', v) :: l' => if String.eqb k k' then Some v else assoc k l'
  end.

Definition or_none (o : option pyval) : pyval :=
  match o with Some v => v | None => PNone end.

(** [bool(v)] *)
Definition truthy (v : pyval) : bool :=
  match v with
  | PNone => false
  | PBool b => b
  | PInt z => negb (Z.eqb z 0)
  | PFloat _ nz => nz
  | PStr s => Py.nonempty s
  | PList l => match l with [] => false | _ => true end
  | PDict l => match l with [] => false | _ => true end
  | PObj _ _ => true
  end.

(** [v == s] for a [str] literal [s]. *)
Definition eq_str (v : pyval) (s : string) : bool :=
  match v with PStr t => String.eqb t s | _ => false end.

(** [v.get(k)]: defined on a [dict], [AttributeError] elsewhere. *)
Definition dict_get (v : pyval) (k : string) : outcome pyval :=
  match v with
  | PDict l => Ret (or_none (assoc k l))
  | _ => Exc AttributeError
  end.

(** [getattr(v, name, None)] *)
Definition getattr_or_none (v : pyval) (name : string) : pyval :=
  match v with
  | PObj attrs _ => or_none (assoc name attrs)
  | _ => PNone
  end.

(** [v.name] *)
Definition getattr (v : pyval) (name : string) : outcome pyval :=
  match v with
  | PObj attrs _ =>
      match assoc name attrs with Some x => Ret x | None => Exc AttributeError end
  | _ => Exc AttributeError
  end.

Definition hasattr (v : pyval) (name : string) : bool :=
  match v with
  | PObj attrs _ => match assoc name attrs with Some _ => true | None => false end
  | _ => false
  end.

Definition isinstance_dict (v : pyval) : bool :=
  match v with PDict _ => true | _ => false end.

(** What the views call and do not define.
    - [FEDAPAY_AUTH_KEY]: the variable of the process environment, when set.
    - [DEBUG]: [settings.DEBUG].
    - [json_loads]: [json.loads] on the bytes of a body.
    - [py_repr]: [str()] of a list, a dict or an object.
    - [resolve_url]: the address [django.shortcuts.redirect] sends to.
    - [fedapay_save_webhook_data]: the connector storing an event.
    - [create_transaction]: steps 1 to 3 of [student_make_payment], for a
      user, an amount in whole francs and a description: the set-up, the
      client data, the callback address and the call of the gateway.
    - [get_transaction_link], [get_transaction_by_fedapay_id]: the two
      other calls of the gateway. *)
Class Externals := {
  FEDAPAY_AUTH_KEY : option (list N);
  DEBUG : bool;
  json_loads : string -> outcome pyval;
  py_repr : pyval -> string;
  resolve_url : pyval -> outcome string;
  fedapay_save_webhook_data : pyval -> outcome unit;
  create_transaction : N -> Z -> string -> outcome pyval;
  get_transaction_link : pyval -> outcome pyval;
  get_transaction_by_fedapay_id : string -> outcome pyval
}.

Local Open Scope string_scope.

(** [str(v)] *)
Definition py_str `{Externals} (v : pyval) : string :=
  match v with
  | PNone => "None"
  | PBool true => "True"
  | PBool false => "False"
  | PInt z => Py.str_of_int z
  | PFloat r _ => r
  | PStr s => s
  | _ => py_repr v
  end.

(** ** Signature of a webhook (views.py, section 1) *)

(** The key and the value of one part of the header:
    [key, _, value = p.strip().partition("=")], the value then stripped of
    white space and of double quotes. *)
Definition key_value (p : string) : string * string :=
  let '(key, _, value) := Py.partition_eq (Py.strip p) in
  (key, Py.strip_dquote (Py.strip value)).

(** One turn of the loop over the parts of the header, on the key and the
    value of the part. *)
Definition pair_step (acc : option string * option string)
  (kv : string * string) : option string * option string :=
  let '(timestamp, signature_v1) := acc in
  let '(key, value) := kv in
  if key =? "t" then (Some value, signature_v1)
  else if key =? "v1" then (timestamp, Some value)
  else if (key =? "v0") && negb (Py.truthy_opt signature_v1)
       then (timestamp, Some value)
  else if Py.nonempty key && Py.nonempty value && negb (key =? "t")
          && negb (Py.truthy_opt signature_v1)
       then (timestamp, Some value)
  else acc.

Definition header_step (acc : option string * option string) (p : string)
  : option string * option string :=
  pair_step acc (key_value p).

(** [(timestamp, signature)] of a header; [None] is Python's [None].  The
    loop works on texts only and raises nothing, so the [except] of the
    source is never entered. *)
Definition _parse_fedapay_signature_header (signature_header : string)
  : option string * option string :=
  if negb (Py.nonempty signature_header) then (None, None)
  else
    let '(timestamp, signature_v1) :=
      fold_left header_step (Py.re_split_delims signature_header) (None, None) in
    if negb (Py.truthy_opt signature_v1)
    then match Py.re_search_hex64 signature_header with
         | Some m => (timestamp, Some m)
         | None => (timestamp, signature_v1)
         end
    else (timestamp, signature_v1).

(** The HMAC over [f"{timestamp}.{payload_str}"]; [Ret None] when the body
    is not UTF-8. *)
Definition _compute_fedapay_signature
  (payload : string) (timestamp : Z) (secret : list N)
  : outcome (option string) :=
  match Utf8.decode payload with
  | None => Ret None
  | Some payload_str =>
      let text := Utf8.text_of (Py.str_of_int timestamp)
                    ++ Utf8.text_of "." ++ payload_str in
      match Utf8.encode text, Utf8.encode secret with
      | Some signed_payload, Some key =>
          Ret (Some (Hmac.hexdigest key signed_payload))
      | _, _ => Exc UnicodeEncodeError
      end
  end%list.

(** [hmac.compare_digest] on two [str]: equality, and [TypeError] when
    either holds a character that is not ASCII. *)
Definition compare_digest (a b : string) : outcome bool :=
  if Py.forallb_str Py.isascii a && Py.forallb_str Py.isascii b
  then Ret (String.eqb a b)
  else Exc TypeError.

(** [(os.getenv('FEDAPAY_AUTH_KEY', '') or '').strip()] *)
Definition webhook_secret `{Externals} : list N :=
  Utf8.strip (match FEDAPAY_AUTH_KEY with Some s => s | None => [] end).

(** The verification of a webhook.  [int(timestamp)] and the decoding of
    the body are under a [try]; the encoding of the secret and
    [hmac.compare_digest] are not. *)
Definition verify_signature_fedapay_v1 `{Externals}
  (payload : string) (signature_header : option string) : outcome bool :=
  match webhook_secret, signature_header with
  | [], _ | _, None => Ret false
  | secret, Some header =>
      if negb (Py.nonempty header) then Ret false
      else
        let '(timestamp, signature_v1) :=
          _parse_fedapay_signature_header header in
        match timestamp, signature_v1 with
        | Some ts, Some sig =>
            if negb (Py.nonempty ts) || negb (Py.nonempty sig) then Ret false
            else
              match Py.int ts with
              | None => Ret false
              | Some ts_int =>
                  match _compute_fedapay_signature payload ts_int secret with
                  | Exc e => Exc e
                  | Ret None => Ret false
                  | Ret (Some computed_hash) =>
                      if negb (Py.nonempty computed_hash) then Ret false
                      else compare_digest (Py.lower computed_hash) (Py.lower sig)
                  end
              end
        | _, _ => Ret false
        end
  end.

(** ** Rows and tables (models.py) *)

Record Course := { c_id : N; c_name : string; c_fee : Z }.

Record Enrollment := {
  e_id : N; e_student : N; e_course : N; e_status : string
}.

Record Payment := {
  p_id : N; p_enrollment : N; p_amount : Z; p_method : string;
  p_transaction_id : string; p_status : string; p_notes : string
}.

(** Amounts ([DecimalField] with two decimal places) are counted in
    hundredths. *)
Definition PAYMENT_STATUS_CHOICES : list string :=
  ["pending"; "completed"; "failed"; "refunded"].

Definition PAYMENT_METHOD_CHOICES : list string :=
  ["credit_card"; "debit_card"; "upi"; "net_banking"; "cash"].

Definition with_p_status (st : string) (p : Payment) : Payment :=
  {| p_id := p_id p; p_enrollment := p_enrollment p; p_amount := p_amount p;
     p_method := p_method p; p_transaction_id := p_transaction_id p;
     p_status := st; p_notes := p_notes p |}.

Definition with_e_status (st : string) (e : Enrollment) : Enrollment :=
  {| e_id := e_id e; e_student := e_student e; e_course := e_course e;
     e_status := st |}.

(** A row written to the database, in the order of the writes. *)
Inductive write :=
| PaymentInserted (p : Payment)
| PaymentSaved (p : Payment)
| EnrollmentSaved (e : Enrollment).

Record world := {
  payments : list Payment;
  enrollments : list Enrollment;
  courses : list Course;
  session : list (string * pyval);
  flashes : list (string * string);
  journal : list (string * string);
  writes : list write
}.

(** ** The monad of a view *)

Definition M (A : Type) : Type := world -> outcome A * world.

Definition ret {A} (a : A) : M A := fun w => (Ret a, w).

Definition bind {A B} (m : M A) (k : A -> M B) : M B :=
  fun w => match m w with
           | (Ret a, w') => k a w'
           | (Exc e, w') => (Exc e, w')
           end.

Definition raise {A} (e : exn) : M A := fun w => (Exc e, w).

Definition lift {A} (o : outcome A) : M A := fun w => (o, w).

(** [try: m except Exception: h] *)
Definition try_except {A} (m : M A) (h : exn -> M A) : M A :=
  fun w => match m w with
           | (Ret a, w') => (Ret a, w')
           | (Exc e, w') => h e w'
           end.

Declare Scope view_scope.
Delimit Scope view_scope with view.
Notation "x <- m ;; k" := (bind m (fun x => k))
  (at level 61, m at next level, right associativity) : view_scope.
Notation "m ;;; k" := (bind m (fun _ => k))
  (at level 61, right associativity) : view_scope.
Local Open Scope view_scope.

Definition obind {A B} (o : outcome A) (k : A -> outcome B) : outcome B :=
  match o with Ret a => k a | Exc e => Exc e end.

(** [a or b], the second operand evaluated only when the first is false. *)
Definition or_else (a : pyval) (b : outcome pyval) : outcome pyval :=
  if truthy a then Ret a else b.

Definition set_payments (ps : list Payment) (w : world) : world :=
  {| payments := ps; enrollments := enrollments w; courses := courses w;
     session := session w; flashes := flashes w; journal := journal w;
     writes := writes w |}.

Definition set_enrollments (es : list Enrollment) (w : world) : world :=
  {| payments := payments w; enrollments := es; courses := courses w;
     session := session w; flashes := flashes w; journal := journal w;
     writes := writes w |}.

Definition add_write (x : write) (w : world) : world :=
  {| payments := payments w; enrollments := enrollments w;
     courses := courses w; session := session w; flashes := flashes w;
     journal := journal w; writes := writes w ++ [x] |}.

(** [logging.<level>(msg)] *)
Definition log (level msg : string) : M unit :=
  fun w => (Ret tt,
            {| payments := payments w; enrollments := enrollments w;
               courses := courses w; session := session w;
               flashes := flashes w; journal := journal w ++ [(level, msg)];
               writes := writes w |}).

(** [messages.<level>(request, msg)] *)
Definition message (level msg : string) : M unit :=
  fun w => (Ret tt,
            {| payments := payments w; enrollments := enrollments w;
               courses := courses w; session := session w;
               flashes := flashes w ++ [(level, msg)]; journal := journal w;
               writes := writes w |}).

(** [request.session[k] = v] *)
Definition session_set (k : string) (v : pyval) : M unit :=
  fun w => (Ret tt,
            {| payments := payments w; enrollments := enrollments w;
               courses := courses w; session := (k, v) :: session w;
               flashes := flashes w; journal := journal w;
               writes := writes w |}).

(** [request.session.get(k)] *)
Definition session_get (k : string) : M pyval :=
  fun w => (Ret (or_none (assoc k (session w))), w).

(** ** Queries (the ORM calls of the views) *)

Definition has_tid (tid : string) (p : Payment) : bool :=
  p_transaction_id p =? tid.

(** [get_object_or_404(Payment, transaction_id=tid)] *)
Definition get_payment_or_404 (tid : string) : M Payment :=
  fun w => match filter (has_tid tid) (payments w) with
           | [] => (Exc Http404, w)
           | [p] => (Ret p, w)
           | _ => (Exc MultipleObjectsReturned, w)
           end.

(** [get_object_or_404(Payment, id=payment_id)] *)
Definition get_payment_by_id_or_404 (payment_id : N) : M Payment :=
  fun w => match filter (fun p => N.eqb (p_id p) payment_id) (payments w) with
           | [] => (Exc Http404, w)
           | [p] => (Ret p, w)
           | _ => (Exc MultipleObjectsReturned, w)
           end.

(** The row of least primary key. *)
Fixpoint least_pk (ps : list Payment) : option Payment :=
  match ps with
  | [] => None
  | p :: ps' =>
      match least_pk ps' with
      | Some q => if N.ltb (p_id q) (p_id p) then Some q else Some p
      | None => Some p
      end
  end.

(** [Payment.objects.filter(transaction_id=tid).first()] *)
Definition first_payment (tid : string) : M (option Payment) :=
  fun w => (Ret (least_pk (filter (has_tid tid) (payments w))), w).

(** [get_object_or_404(Enrollment, id=enrollment_id, student=user)] *)
Definition get_enrollment_or_404 (enrollment_id student : N) : M Enrollment :=
  fun w => match filter (fun e => N.eqb (e_id e) enrollment_id
                                  && N.eqb (e_student e) student)
                        (enrollments w) with
           | [] => (Exc Http404, w)
           | [e] => (Ret e, w)
           | _ => (Exc MultipleObjectsReturned, w)
           end.

(** [payment.enrollment] *)
Definition payment_enrollment (p : Payment) : M Enrollment :=
  fun w => match find (fun e => N.eqb (e_id e) (p_enrollment p)) (enrollments w) with
           | Some e => (Ret e, w)
           | None => (Exc DoesNotExist, w)
           end.

(** [enrollment.course] *)
Definition enrollment_course (e : Enrollment) : M Course :=
  fun w => match find (fun c => N.eqb (c_id c) (e_course e)) (courses w) with
           | Some c => (Ret c, w)
           | None => (Exc DoesNotExist, w)
           end.

(** [payment.save()]: the row of that primary key is overwritten. *)
Definition payment_save (p : Payment) : M unit :=
  fun w =>
    (Ret tt,
     add_write (PaymentSaved p)
       (set_payments
          (map (fun q => if N.eqb (p_id q) (p_id p) then p else q) (payments w))
          w)).

(** [enrollment.save()] *)
Definition enrollment_save (e : Enrollment) : M unit :=
  fun w =>
    (Ret tt,
     add_write (EnrollmentSaved e)
       (set_enrollments
          (map (fun q => if N.eqb (e_id q) (e_id e) then e else q)
               (enrollments w))
          w)).

Definition next_pk (ps : list Payment) : N :=
  N.succ (fold_right N.max 0%N (map p_id ps)).

(** [Payment.objects.create(enrollment=, amount=, transaction_id=,
    status=)]: the method and the notes take their empty default; the
    unique constraint on [transaction_id] raises [IntegrityError]. *)
Definition payment_create (e : Enrollment) (amount : Z) (tid st : string)
  : M Payment :=
  fun w =>
    if existsb (has_tid tid) (payments w) then (Exc IntegrityError, w)
    else
      let p := {| p_id := next_pk (payments w); p_enrollment := e_id e;
                  p_amount := amount; p_method := "";
                  p_transaction_id := tid; p_status := st; p_notes := "" |} in
      (Ret p, add_write (PaymentInserted p) (set_payments (payments w ++ [p]) w)).

(** ** Requests and responses *)

(** The cleaned fields of [UpdatePaymentForm]; [f_amount] is [None] when the
    posted amount is not a valid decimal. *)
Record UpdatePaymentPost := {
  f_amount : option Z; f_payment_method : string; f_status : string;
  f_transaction_id : string; f_notes : string
}.

Record request := {
  method : string;
  body : string;
  x_fedapay_signature : option string;
  GET : list (string * string);
  user : N;
  POST : UpdatePaymentPost
}.

Inductive response :=
| JsonResponse (code : nat) (status : string)
| HttpResponseForbidden
| Redirect (route : string)
| RedirectTo (url : string)
| Render (template : string)
| NotFound
| ServerError (e : exn).

Definition status_code (r : response) : nat :=
  match r with
  | JsonResponse c _ => c
  | HttpResponseForbidden => 403
  | Redirect _ | RedirectTo _ => 302
  | Render _ => 200
  | NotFound => 404
  | ServerError _ => 500
  end.

(** What Django answers for a view: an uncaught [Http404] is a 404, any
    other uncaught exception a 500. *)
Definition serve (view : M response) (w : world) : response * world :=
  match view w with
  | (Ret r, w') => (r, w')
  | (Exc Http404, w') => (NotFound, w')
  | (Exc e, w') => (ServerError e, w')
  end.

(** [request.GET.get(k)]: the last value given for [k]. *)
Definition querydict_get (q : list (string * string)) (k : string) : pyval :=
  match assoc k (rev q) with Some v => PStr v | None => PNone end.

(** ** The views (views.py, sections 1, 4 and 7) *)

(** The message of a failed initiation. *)
Definition UNAVAILABLE : string :=
  "Désolé, le service FedaPay est indisponible".

Section Views.
Context {X : Externals}.

(** [d.get('status') or (d.get('data') or {}).get('status')] *)
Definition status_or_data_status (d : pyval) : outcome pyval :=
  obind (dict_get d "status") (fun st =>
  or_else st
    (obind (dict_get d "data") (fun data =>
     dict_get (if truthy data then data else PDict []) "status"))).

Definition _extract_fedapay_status (tx : pyval) : outcome pyval :=
  match tx with
  | PNone => Ret PNone
  | PDict _ => status_or_data_status tx
  | _ =>
      let status := getattr_or_none tx "status" in
      if truthy status then Ret status
      else
        let data := getattr_or_none tx "data" in
        if isinstance_dict data then dict_get data "status"
        else if hasattr data "status" then getattr data "status"
        else match tx with
             | PObj _ (Some dump) => status_or_data_status dump
             | _ => Ret PNone
             end
  end.

(** The redirect URL of a transaction token (step 5 of
    [student_make_payment]): the keys of a [dict] in the order [url],
    [payment_link], [link]; the attributes of any other object in the order
    [payment_link], [url], [link], and then the keys of its [model_dump()]. *)
Definition redirect_url_of (token_data : pyval) : outcome pyval :=
  if isinstance_dict token_data then
    obind (dict_get token_data "url") (fun u =>
    or_else u (obind (dict_get token_data "payment_link") (fun l =>
    or_else l (dict_get token_data "link"))))
  else
    let by_attr :=
      let a := getattr_or_none token_data "payment_link" in
      if truthy a then a
      else let b := getattr_or_none token_data "url" in
           if truthy b then b else getattr_or_none token_data "link" in
    match token_data with
    | PObj _ (Some dump) =>
        if truthy by_attr then Ret by_attr
        else
          obind (dict_get dump "url") (fun u =>
          or_else u (obind (dict_get dump "payment_link") (fun l =>
          or_else l (dict_get dump "link"))))
    | _ => Ret by_attr
    end.

(** The payment tunnel.  The enrollment and its course are fetched outside
    the [try]; on a POST the transaction is created at the gateway, the
    pending row is inserted (step 4), and only then is the link asked for
    (step 5) and followed (step 6). *)
Definition student_make_payment (request : request) (enrollment_id : N)
  : M response :=
  enrollment <- get_enrollment_or_404 enrollment_id (user request) ;;
  course <- enrollment_course enrollment ;;
  if method request =? "POST" then
    try_except
      (new_tx <- lift (create_transaction (user request)
                         (Z.quot (c_fee course) 100)
                         ("Paiement IFRI : " ++ c_name course)) ;;
       tx_id <- lift (getattr new_tx "id") ;;
       payment_create enrollment (c_fee course) (py_str tx_id) "pending" ;;;
       session_set "last_fedapay_tx_id" (PStr (py_str tx_id)) ;;;
       session_set "last_enrollment_id" (PInt (Z.of_N (e_id enrollment))) ;;;
       token_data <- lift (get_transaction_link tx_id) ;;
       redirect_url <- lift (redirect_url_of token_data) ;;
       if truthy redirect_url then
         log "INFO" "TUNNEL IFRI : Redirection" ;;;
         url <- lift (resolve_url redirect_url) ;;
         ret (RedirectTo url)
       else raise AttributeError)
      (fun e =>
         log "ERROR" "ECHEC TUNNEL PAIEMENT" ;;;
         message "error" UNAVAILABLE ;;;
         ret (Redirect "student_dashboard"))
  else ret (Render "student/make_payment.html").

Definition SUCCESS_STATUSES : list string := ["approved"; "completed"; "success"].

(** The message every callback ends with. *)
Definition CONFIRMED : string :=
  "Paiement confirmé ! Votre accès est maintenant actif.".

(** The transaction identifier of the query string:
    [GET.get('id') or GET.get('transaction_id') or GET.get('trans_id')
     or GET.get('transaction')]. *)
Definition query_tx_id (request : request) : pyval :=
  let q := querydict_get (GET request) in
  if truthy (q "id") then q "id"
  else if truthy (q "transaction_id") then q "transaction_id"
  else if truthy (q "trans_id") then q "trans_id"
  else q "transaction".

(** The identifier the callback works with: the one of the query string
    or, without one, the one kept in the session. *)
Definition callback_tx_id (request : request) (w : world) : pyval :=
  if truthy (query_tx_id request) then query_tx_id request
  else or_none (assoc "last_fedapay_tx_id" (session w)).

(** The body of the [try] of [fedapay_callback]. *)
Definition callback_check (tx_id : pyval) : M unit :=
  if truthy tx_id then
    tx <- lift (get_transaction_by_fedapay_id (py_str tx_id)) ;;
    status <- lift (_extract_fedapay_status tx) ;;
    if existsb (eq_str status) SUCCESS_STATUSES then
      found <- first_payment (py_str tx_id) ;;
      match found with
      | Some payment =>
          let payment := with_p_status "completed" payment in
          payment_save payment ;;;
          enroll <- payment_enrollment payment ;;
          enrollment_save (with_e_status "active" enroll)
      | None => ret tt
      end
    else ret tt
  else ret tt.

Definition fedapay_callback (request : request) : M response :=
  tx_id <- (if truthy (query_tx_id request) then ret (query_tx_id request)
            else session_get "last_fedapay_tx_id") ;;
  try_except (callback_check tx_id)
    (fun err => log "WARNING" "CALLBACK CHECK") ;;;
  message "success" CONFIRMED ;;;
  ret (Redirect "student_view_courses").

(** The fields read from the event: [event_name], [status] and
    [trans_id], in the order the view computes them. *)
Definition event_fields (event_json : pyval)
  : outcome (pyval * pyval * pyval) :=
  obind (dict_get event_json "name") (fun name =>
  let event_name := if truthy name then name else PStr "" in
  obind (dict_get event_json "entity") (fun ent =>
  let entity := if truthy ent then ent else PDict [] in
  obind (dict_get event_json "status") (fun st =>
  obind (or_else st (dict_get entity "status")) (fun status =>
  obind (dict_get event_json "id") (fun id =>
  obind (or_else id (dict_get entity "id")) (fun trans_id =>
  Ret (event_name, status, trans_id))))))).

(** [status == 'approved' or event_name == 'transaction.approved'] *)
Definition approved (event_name status : pyval) : bool :=
  eq_str status "approved" || eq_str event_name "transaction.approved".

(** The body of the [try] of [fedapay_webhook]. *)
Definition webhook_process (payload : string) : M response :=
  event_json <- lift (json_loads payload) ;;
  lift (fedapay_save_webhook_data event_json) ;;;
  fields <- lift (event_fields event_json) ;;
  let '(event_name, status, trans_id) := fields in
  if approved event_name status then
    if negb (truthy trans_id) then
      log "WARNING" "WEBHOOK WARNING : Transaction id introuvable dans l'evenement." ;;;
      ret (JsonResponse 200 "ignored")
    else
      payment <- get_payment_or_404 (py_str trans_id) ;;
      let payment := with_p_status "completed" payment in
      payment_save payment ;;;
      enroll <- payment_enrollment payment ;;
      enrollment_save (with_e_status "active" enroll) ;;;
      log "INFO" "WEBHOOK SUCCESS : Cours débloqué" ;;;
      ret (JsonResponse 200 "received")
  else ret (JsonResponse 200 "received").

(** The webhook.  The verification is called outside the [try]: what it
    raises leaves the view.  In debugging mode a refusal writes one more
    line to the log, computed under a [try] of its own. *)
Definition fedapay_webhook (request : request) : M response :=
  if method request =? "POST" then
    let payload := body request in
    let signature_raw := x_fedapay_signature request in
    verified <- lift (verify_signature_fedapay_v1 payload signature_raw) ;;
    if negb verified then
      (if DEBUG then log "WARNING" "WEBHOOK DEBUG" else ret tt) ;;;
      log "WARNING" "WEBHOOK SECURITY : Tentative de signature invalide détectée." ;;;
      ret (JsonResponse 403 "forbidden")
    else
      try_except (webhook_process payload)
        (fun webhook_err =>
           log "ERROR" "WEBHOOK ERROR" ;;;
           ret (JsonResponse 200 "ignored"))
  else ret HttpResponseForbidden.

(** What [ProhibitNullCharactersValidator], which every text field of a
    form carries, accepts: a text without the character of code 0. *)
Definition no_null_character (s : string) : bool :=
  Py.forallb_str (fun c => negb (N.eqb (Py.code c) 0)) s.

(** [UpdatePaymentForm(request.POST, instance=p).is_valid()]: the amount is
    a decimal, the method and the status are among the choices, the
    transaction identifier and the notes hold no null character, and the
    transaction identifier is at most 100 characters long and is carried by
    no other row. *)
Definition form_is_valid (post : UpdatePaymentPost) (p : Payment) (w : world)
  : bool :=
  match f_amount post with Some _ => true | None => false end
  && existsb (String.eqb (f_payment_method post)) PAYMENT_METHOD_CHOICES
  && existsb (String.eqb (f_status post)) PAYMENT_STATUS_CHOICES
  && no_null_character (Py.strip (f_transaction_id post))
  && Nat.leb (String.length (Py.strip (f_transaction_id post))) 100
  && no_null_character (Py.strip (f_notes post))
  && negb (existsb (fun q => negb (N.eqb (p_id q) (p_id p))
                             && has_tid (Py.strip (f_transaction_id post)) q)
                   (payments w)).

(** The instance after [form.save()]. *)
Definition form_instance (post : UpdatePaymentPost) (p : Payment) : Payment :=
  {| p_id := p_id p; p_enrollment := p_enrollment p;
     p_amount := match f_amount post with Some a => a | None => p_amount p end;
     p_method := f_payment_method post;
     p_transaction_id := Py.strip (f_transaction_id post);
     p_status := f_status post;
     p_notes := Py.strip (f_notes post) |}.

(** The manual correction of a payment by a manager: the form is saved
    first, the enrollment of a payment left completed is then activated
    unless it is active already. *)
Definition manager_update_payment (request : request) (payment_id : N)
  : M response :=
  p <- get_payment_by_id_or_404 payment_id ;;
  if method request =? "POST" then
    valid <- (fun w => (Ret (form_is_valid (POST request) p w), w)) ;;
    if valid then
      let p := form_instance (POST request) p in
      payment_save p ;;;
      (if p_status p =? "completed" then
         enroll <- payment_enrollment p ;;
         if negb (e_status enroll =? "active")
         then enrollment_save (with_e_status "active" enroll)
         else ret tt
       else ret tt) ;;;
      message "success" "Statut mis à jour." ;;;
      ret (Redirect "manager_view_payments")
    else ret (Render "manager/update_payment.html")
  else ret (Render "manager/update_payment.html").

End Views.

(** ** The header seen as a list of pairs *)

(** The keys and values of the parts of a header, in order. *)
Definition pairs (h : string) : list (string * string) :=
  map key_value (Py.re_split_delims h).

(** What the loop over the parts leaves in [timestamp] and [signature_v1]. *)
Definition structured (h : string) : option string * option string :=
  fold_left pair_step (pairs h) (None, None).

(** The value of the last pair of key [k]. *)
Fixpoint last_value (k : string) (kvs : list (string * string)) : option string :=
  match kvs with
  | [] => None
  | (k', v) :: rest =>
      match last_value k rest with
      | Some x => Some x
      | None => if k' =? k then Some v else None
      end
  end.

(** A pair that cannot give a signature: its key is [t] or empty, or its
    value is empty. *)
Definition no_candidate (kv : string * string) : Prop :=
  fst kv = "t" \/ fst kv = "" \/ snd kv = "".

(** [m] is a run of 64 hexadecimal characters of [h], and no such run
    starts further left. *)
Definition leftmost_hex64 (h m : string) : Prop :=
  exists pre post,
    h = pre ++ m ++ post
    /\ String.length m = 64
    /\ Py.forallb_str Py.ishex m = true
    /\ forall pre' m' post',
         h = pre' ++ m' ++ post' -> String.length m' = 64 ->
         Py.forallb_str Py.ishex m' = true ->
         String.length pre <= String.length pre'.

Definition has_hex64 (h : string) : Prop :=
  exists pre m post,
    h = pre ++ m ++ post /\ String.length m = 64
    /\ Py.forallb_str Py.ishex m = true.

Definition no_delim (s : string) : bool :=
  Py.forallb_str (fun c => negb (Py.is_delim c)) s.

(** The fallback on [v0] read as holding of every header: whenever no pair
    has the key [v1] and some pair has the key [v0], the value of that pair
    is the signature. *)
Definition v0_taken_whenever_v1_absent : Prop :=
  forall h v,
    Forall (fun kv => fst kv <> "v1") (pairs h) ->
    In ("v0", v) (pairs h) ->
    snd (_parse_fedapay_signature_header h) = Some v.

(** A header with a pair that is not a signature and a run of 64
    hexadecimal characters. *)
Definition scheme_header : string :=
  "scheme=hmac,t=1700000000,"
  ++ "9f86d081884c7d659a2feaa0c55ad015a3bf4f1b2b0b822cd15d6c15b0f00a08".

(** ** The tables after a reconciliation *)

(** The payments once [p] has been saved as completed. *)
Definition mark_completed (p : Payment) (ps : list Payment) : list Payment :=
  map (fun q => if N.eqb (p_id q) (p_id p) then with_p_status "completed" p else q)
      ps.

(** The enrollments once [e] has been saved as active. *)
Definition mark_active (e : Enrollment) (es : list Enrollment) : list Enrollment :=
  map (fun q => if N.eqb (e_id q) (e_id e) then with_e_status "active" e else q)
      es.

(** The enrollment a payment points to. *)
Definition enrollment_of (p : Payment) (es : list Enrollment) : option Enrollment :=
  find (fun e => N.eqb (e_id e) (p_enrollment p)) es.

(** In a trace of writes, the write that activates an enrollment comes
    after a write that completes a payment of that enrollment. *)
Definition completion_first (ws : list write) : Prop :=
  forall pre e post,
    ws = (pre ++ EnrollmentSaved e :: post)%list -> e_status e = "active" ->
    exists p, In (PaymentSaved p) pre /\ p_status p = "completed"
              /\ p_enrollment p = e_id e.

(** What a view may have written between [w] and [w']: nothing; one
    payment row; or a completed payment row and then the enrollment it
    points to.  The payment written is in the table of [w']. *)
Inductive reconciliation (w w' : world) : Prop :=
| no_write :
    writes w' = writes w -> reconciliation w w'
| payment_only (p : Payment) :
    writes w' = (writes w ++ [PaymentSaved p])%list ->
    reconciliation w w'
| payment_then_enrollment (p : Payment) (e : Enrollment) :
    writes w' = (writes w ++ [PaymentSaved p; EnrollmentSaved e])%list ->
    p_status p = "completed" -> p_enrollment p = e_id e ->
    In p (payments w') ->
    reconciliation w w'.

(** Between [w] and [w'] no enrollment was saved as active unless a
    completed payment of that enrollment was saved before it, and that
    payment is in the table of [w']. *)
Definition activation_after_completion (w w' : world) : Prop :=
  exists new,
    writes w' = (writes w ++ new)%list
    /\ completion_first new
    /\ forall e, In (EnrollmentSaved e) new -> e_status e = "active" ->
         exists p, In p (payments w') /\ p_status p = "completed"
                   /\ p_enrollment p = e_id e.

(** [a or b or c]: the first operand that is true, else the last. *)
Fixpoint first_truthy (vs : list pyval) : pyval :=
  match vs with
  | [] => PNone
  | [v] => v
  | v :: rest => if truthy v then v else first_truthy rest
  end.

(** A field of a transaction token: the key of a mapping, the attribute of
    any other object. *)
Definition token_field (token_data : pyval) (name : string) : pyval :=
  match token_data with
  | PDict l => or_none (assoc name l)
  | _ => getattr_or_none token_data name
  end.

(** The resolution of the redirect URL as the spec words it: the fields
    [url], [payment_link], [link], in that order, for a mapping and for a
    token object alike. *)
Definition redirect_url_as_specified (token_data : pyval) : pyval :=
  first_truthy [token_field token_data "url";
                token_field token_data "payment_link";
                token_field token_data "link"].

Definition url_order_is_fixed : Prop :=
  forall token_data,
    redirect_url_of token_data = Ret (redirect_url_as_specified token_data).

(** The row [Payment.objects.create] inserts for an enrollment. *)
Definition pending_payment (w : world) (e : Enrollment) (c : Course)
  (tid : string) : Payment :=
  {| p_id := next_pk (payments w); p_enrollment := e_id e;
     p_amount := c_fee c; p_method := ""; p_transaction_id := tid;
     p_status := "pending"; p_notes := "" |}.

(** ** What the claims talk about *)

Section Notions.
Context {X : Externals}.

(** The header carries, for the body received, the signature the server
    computes: a timestamp [t] that [int()] reads and a candidate equal, up
    to the case of letters, to the hexadecimal HMAC-SHA256, keyed by the
    secret, of the timestamp, a dot and the body. *)
Definition signature_matches (payload header : string) : Prop :=
  exists ts sig n text key,
    _parse_fedapay_signature_header header = (Some ts, Some sig)
    /\ Py.int ts = Some n
    /\ Utf8.decode payload = Some text
    /\ Utf8.encode webhook_secret = Some key
    /\ Py.lower sig
       = Py.lower (Hmac.hexdigest key (Py.str_of_int n ++ "." ++ payload)).

(** The secret is unset or blank. *)
Definition secret_blank : Prop :=
  match FEDAPAY_AUTH_KEY with
  | None => True
  | Some s => forallb Utf8.isspace s = true
  end.

(** The rows and what the user keeps: everything but the log. *)
Definition same_state (w w' : world) : Prop :=
  payments w' = payments w /\ enrollments w' = enrollments w
  /\ courses w' = courses w /\ session w' = session w
  /\ flashes w' = flashes w /\ writes w' = writes w.

End Notions.

(** ** A setting to run the views in *)

(** A decoder for the JSON texts of the examples: objects, arrays, strings
    without escape sequence, integers and the three literals.  Every other
    text is refused, also the floats and the escapes [json.loads] reads. *)
Module Json.

Definition is_ws (c : ascii) : bool :=
  Py.in_range 9 10 c || N.eqb (Py.code c) 13 || N.eqb (Py.code c) 32.

Definition skip_ws (s : string) : string := Py.lstrip_by is_ws s.

(** The characters up to the closing double quote and what follows it. *)
Fixpoint read_string (s : string) : option (string * string) :=
  match s with
  | EmptyString => None
  | String c s' =>
      if Ascii.eqb c Py.dquote then Some (EmptyString, s')
      else if Ascii.eqb c "\"%char || N.ltb (Py.code c) 32 then None
      else match read_string s' with
           | Some (t, r) => Some (String c t, r)
           | None => None
           end
  end.

Fixpoint read_digits (s : string) : string * string :=
  match s with
  | String c s' =>
      if Py.isdigit c
      then let '(d, r) := read_digits s' in (String c d, r)
      else (EmptyString, s)
  | EmptyString => (EmptyString, EmptyString)
  end.

Definition read_int (s : string) : option (pyval * string) :=
  let '(neg, s1) :=
    match s with String "-"%char r => (true, r) | _ => (false, s) end in
  let '(d, r) := read_digits s1 in
  match d, r with
  | EmptyString, _ => None
  | String "0"%char (String _ _), _ => None
  | _, String "."%char _ | _, String "e"%char _ | _, String "E"%char _ => None
  | _, _ =>
      match Py.int_digits d 0%Z false with
      | Some z => Some (PInt (if neg then Z.opp z else z), r)
      | None => None
      end
  end.

(** A later member replaces an earlier one of the same name. *)
Fixpoint dict_set (k : string) (v : pyval) (l : list (string * pyval))
  : list (string * pyval) :=
  match l with
  | [] => [(k, v)]
  | (k', v') :: l' =>
      if String.eqb k k' then (k, v) :: l' else (k', v') :: dict_set k v l'
  end.

Definition starts (p s : string) : option string :=
  if String.prefix p s
  then Some (String.substring (String.length p)
               (String.length s - String.length p) s)
  else None.

Fixpoint value (fuel : nat) (s : string) : option (pyval * string) :=
  match fuel with
  | O => None
  | S f =>
      match skip_ws s with
      | String c r =>
          if Ascii.eqb c "{"%char then
            match skip_ws r with
            | String "}"%char r' => Some (PDict [], r')
            | _ => members f r []
            end
          else if Ascii.eqb c "["%char then
            match skip_ws r with
            | String "]"%char r' => Some (PList [], r')
            | _ => elements f r []
            end
          else if Ascii.eqb c Py.dquote then
            option_map (fun '(t, r') => (PStr t, r')) (read_string r)
          else
            match starts "true" (String c r), starts "false" (String c r),
                  starts "null" (String c r) with
            | Some r', _, _ => Some (PBool true, r')
            | _, Some r', _ => Some (PBool false, r')
            | _, _, Some r' => Some (PNone, r')
            | _, _, _ => read_int (String c r)
            end
      | EmptyString => None
      end
  end
with members (fuel : nat) (s : string) (acc : list (string * pyval))
  : option (pyval * string) :=
  match fuel with
  | O => None
  | S f =>
      match skip_ws s with
      | String c r =>
          if Ascii.eqb c Py.dquote then
            match read_string r with
            | Some (k, r1) =>
                match skip_ws r1 with
                | String ":"%char r2 =>
                    match value f r2 with
                    | Some (v, r3) =>
                        match skip_ws r3 with
                        | String ","%char r4 => members f r4 (dict_set k v acc)
                        | String "}"%char r4 => Some (PDict (dict_set k v acc), r4)
                        | _ => None
                        end
                    | None => None
                    end
                | _ => None
                end
            | None => None
            end
          else None
      | EmptyString => None
      end
  end
with elements (fuel : nat) (s : string) (acc : list pyval)
  : option (pyval * string) :=
  match fuel with
  | O => None
  | S f =>
      match value f s with
      | Some (v, r) =>
          match skip_ws r with
          | String ","%char r' => elements f r' (acc ++ [v])
          | String "]"%char r' => Some (PList (acc ++ [v]), r')
          | _ => None
          end
      | None => None
      end
  end.

Definition loads (s : string) : outcome pyval :=
  match value (S (String.length s)) s with
  | Some (v, r) =>
      match skip_ws r with
      | EmptyString => Ret v
      | _ => Exc JSONDecodeError
      end
  | None => Exc JSONDecodeError
  end.

End Json.

(** A text written with single quotes, read with double quotes. *)
Fixpoint dq (s : string) : string :=
  match s with
  | EmptyString => EmptyString
  | String c s' =>
      String (if Ascii.eqb c "'"%char then Py.dquote else c) (dq s')
  end.

(** [django.shortcuts.redirect] given a text with a slash or a dot that
    names no route: the text is the address.  Anything else here fails to
    reverse. *)
Definition resolve_plain_url (to : pyval) : outcome string :=
  match to with
  | PStr s =>
      if existsb (fun c => Ascii.eqb c "/"%char || Ascii.eqb c "."%char)
                 (list_ascii_of_string s)
      then Ret s else Exc NoReverseMatch
  | _ => Exc TypeError
  end.

(** The setting of the examples: the secret ["whsec_demo"], no debugging,
    a connector that stores every event, and a gateway that knows the
    transaction [tx_1] of 5000 XOF, approved, payable at
    [https://pay.example/tx_1]. *)
Definition demo_secret : string := "whsec_demo".

Definition demo : Externals := {|
  FEDAPAY_AUTH_KEY := Some (Utf8.text_of demo_secret);
  DEBUG := false;
  json_loads := Json.loads;
  py_repr := fun _ => "<object>";
  resolve_url := resolve_plain_url;
  fedapay_save_webhook_data := fun _ => Ret tt;
  create_transaction := fun _ _ _ => Ret (PObj [("id", PStr "tx_1")] None);
  get_transaction_link := fun _ =>
    Ret (PDict [("token", PStr "tok"); ("url", PStr "https://pay.example/tx_1")]);
  get_transaction_by_fedapay_id := fun tid =>
    if tid =? "tx_1" then Ret (PDict [("status", PStr "approved")])
    else Exc (ExternalError "transaction not found")
|}.

Definition demo_world : world := {|
  payments := [{| p_id := 1; p_enrollment := 7; p_amount := 500000;
                  p_method := ""; p_transaction_id := "tx_1";
                  p_status := "pending"; p_notes := "" |}];
  enrollments := [{| e_id := 7; e_student := 3; e_course := 2;
                     e_status := "pending" |}];
  courses := [{| c_id := 2; c_name := "Rocq"; c_fee := 500000 |}];
  session := []; flashes := []; journal := []; writes := []
|}.

Definition approved_body : string :=
  dq "{'name':'transaction.approved','entity':{'id':'tx_1','status':'approved'}}".

(** The header a sender that knows [secret] writes for [payload] at time
    [ts]. *)
Definition signed_header (secret : string) (ts : Z) (payload : string) : string :=
  "t=" ++ Py.str_of_int ts ++ ",v1="
  ++ Hmac.hexdigest secret (Py.str_of_int ts ++ "." ++ payload).

Definition post (payload : string) (header : option string) : request := {|
  method := "POST"; body := payload; x_fedapay_signature := header;
  GET := []; user := 3%N;
  POST := {| f_amount := None; f_payment_method := ""; f_status := "";
             f_transaction_id := ""; f_notes := "" |}
|}.

(** A header whose candidate signature is the one Latin-1 letter 233. *)
Definition non_ascii_header : string :=
  "t=1,v1=" ++ String (ascii_of_N 233) EmptyString.

(** The demo setting with a secret made of two spaces. *)
Definition demo_blank : Externals := {|
  FEDAPAY_AUTH_KEY := Some [32%N; 32%N];
  DEBUG := false;
  json_loads := Json.loads;
  py_repr := fun _ => "<object>";
  resolve_url := resolve_plain_url;
  fedapay_save_webhook_data := fun _ => Ret tt;
  create_transaction := @create_transaction demo;
  get_transaction_link := @get_transaction_link demo;
  get_transaction_by_fedapay_id := @get_transaction_by_fedapay_id demo
|}.

(** An approved event about a transaction no payment row carries. *)
Definition unknown_body : string :=
  dq "{'name':'transaction.approved','entity':{'id':'tx_404','status':'approved'}}".

(** An approved event without a transaction identifier. *)
Definition anonymous_body : string :=
  dq "{'name':'transaction.approved','entity':{'status':'approved'}}".

Definition demo_post (payload : string) : request :=
  post payload (Some (signed_header demo_secret 1700000000 payload)).

(** The unknown-transaction rule read as the spec words it: a correctly
    signed, approved event whose transaction identifier matches no payment
    is answered with an error status. *)
Definition unknown_transaction_fails_loudly : Prop :=
  forall (X : Externals) (request : request) (w : world)
         (ev event_name status trans_id : pyval),
    method request = "POST" ->
    verify_signature_fedapay_v1 (body request) (x_fedapay_signature request)
    = Ret true ->
    json_loads (body request) = Ret ev ->
    fedapay_save_webhook_data ev = Ret tt ->
    event_fields ev = Ret (event_name, status, trans_id) ->
    approved event_name status = true ->
    truthy trans_id = true ->
    filter (has_tid (py_str trans_id)) (payments w) = [] ->
    400 <= status_code (fst (serve (fedapay_webhook request) w)).

(** A token object whose attributes disagree. *)
Definition two_links : pyval :=
  PObj [("payment_link", PStr "https://pay.example/a");
        ("url", PStr "https://pay.example/b")] None.

(** The demo world before any payment. *)
Definition fresh_world : world := set_payments [] demo_world.

(** The refusal as the spec words it: a POST whose signature is not
    verified, whatever the reason, is answered 403 [forbidden]. *)
Definition unverified_is_forbidden : Prop :=
  forall (X : Externals) (request : request) (w : world),
    method request = "POST" ->
    verify_signature_fedapay_v1 (body request) (x_fedapay_signature request)
    <> Ret true ->
    fst (serve (fedapay_webhook request) w) = JsonResponse 403 "forbidden".

(** The request of a browser coming back from the payment page with the
    identifier [tid] in its query string. *)
Definition back_from_gateway (tid : string) : request := {|
  method := "GET"; body := ""; x_fedapay_signature := None;
  GET := [("id", tid)]; user := 3%N; POST := POST (post "" None)
|}.

(** A field of an event: the value of a key of a mapping, [None] for a
    missing key and for what is not a mapping. *)
Definition event_field (ev : pyval) (k : string) : pyval :=
  match ev with
  | PDict l => or_none (assoc k l)
  | _ => PNone
  end.

(** The entries of a mapping; none for anything else. *)
Definition mapping_entries (v : pyval) : list (string * pyval) :=
  match v with
  | PDict m => m
  | _ => []
  end.

(** Recognised as successful, as the spec words it: the status of the event
    or the status of its entity is [approved], or the event is named
    [transaction.approved]. *)
Definition successful_as_specified (ev : pyval) : bool :=
  eq_str (event_field ev "status") "approved"
  || eq_str (event_field (event_field ev "entity") "status") "approved"
  || eq_str (event_field ev "name") "transaction.approved".

(** The rule of the approved event read as the spec words it: a verified
    event that is successful in those words, with a transaction identifier
    one payment row carries, completes the payment and activates its
    enrollment. *)
Definition nested_status_always_counts : Prop :=
  forall (X : Externals) (request : request) (w : world)
         (ev event_name status trans_id : pyval) (p : Payment) (e : Enrollment),
    method request = "POST" ->
    verify_signature_fedapay_v1 (body request) (x_fedapay_signature request)
    = Ret true ->
    json_loads (body request) = Ret ev ->
    fedapay_save_webhook_data ev = Ret tt ->
    event_fields ev = Ret (event_name, status, trans_id) ->
    successful_as_specified ev = true ->
    truthy trans_id = true ->
    filter (has_tid (py_str trans_id)) (payments w) = [p] ->
    enrollment_of p (enrollments w) = Some e ->
    fst (serve (fedapay_webhook request) w) = JsonResponse 200 "received"
    /\ In (with_p_status "completed" p)
          (payments (snd (serve (fedapay_webhook request) w)))
    /\ In (with_e_status "active" e)
          (enrollments (snd (serve (fedapay_webhook request) w))).

(** An event with a status of its own, [declined], about an entity whose
    status is [approved]. *)
Definition declined_body : string :=
  dq "{'name':'transaction.declined','status':'declined','entity':{'id':'tx_1','status':'approved'}}".

(** ** More of views.py: the debugging masks and the contents of a course *)

(** [s[:n]] *)
Fixpoint slice_to (n : nat) (s : string) : string :=
  match n, s with
  | S n', String c s' => String c (slice_to n' s')
  | _, _ => EmptyString
  end.

(** [s[n:]] *)
Fixpoint slice_from (n : nat) (s : string) : string :=
  match n, s with
  | S n', String _ s' => slice_from n' s'
  | _, _ => s
  end.

(** [s[-n:]] for a positive [n] *)
Definition slice_last (n : nat) (s : string) : string :=
  slice_from (String.length s - n) s.

(** The signature header as the debugging line of the webhook shows it:
    nothing for [None] and for the empty text, a text of at most 20
    characters whole, of a longer one [f"{sig[:12]}...{sig[-8:]}"]. *)
Definition _mask_signature_header (sig : option string) : option string :=
  match sig with
  | None => None
  | Some s =>
      if negb (Py.nonempty s) then None
      else if Nat.leb (String.length s) 20 then Some s
      else Some (slice_to 12 s ++ "..." ++ slice_last 8 s)
  end.

(** A digest as the debugging line shows it: whole up to 16 characters,
    else [f"{sig[:8]}...{sig[-8:]}"]. *)
Definition _mask_hash (sig : option string) : option string :=
  match sig with
  | None => None
  | Some s =>
      if negb (Py.nonempty s) then None
      else if Nat.leb (String.length s) 16 then Some s
      else Some (slice_to 8 s ++ "..." ++ slice_last 8 s)
  end.






(** ** Notions of the further properties *)















Section Channels.
Context {X : Externals}.




End Channels.





(** * Properties *)

Example strip_ex : Py.strip "  t=12 " = "t=12".
Proof. reflexivity. Qed.

Example split_ex :
  Py.re_split_delims "a,b;;c," = ["a"; "b"; ""; "c"; ""].
Proof. reflexivity. Qed.

Example partition_ex : Py.partition_eq "a=b=c" = ("a", true, "b=c").
Proof. reflexivity. Qed.

Example int_ex :
  map Py.int ["7"; "+7"; "-7"; "007"; "1_000"; " 12 "; "00_1"]
  = map Some [7; 7; -7; 7; 1000; 12; 1]%Z
  /\ map Py.int ["_1"; "1_"; "1__0"; "+ 5"; ""; "0x10"; "1.0"; "+"; "--1"; "1 2"]
     = repeat None 10.
Proof. split; reflexivity. Qed.

Example str_of_int_ex :
  map Py.str_of_int [0; 7; -12; 1700000000]%Z = ["0"; "7"; "-12"; "1700000000"].
Proof. reflexivity. Qed.

Example sha256_abc :
  Hmac.hex (Sha256.digest (Hmac.bytes_of "abc"))
  = "ba7816bf8f01cfea414140de5dae2223b00361a396177a9cb410ff61f20015ad".
Proof. vm_compute. reflexivity. Qed.

Example sha256_empty :
  Hmac.hex (Sha256.digest [])
  = "e3b0c44298fc1c149afbf4c8996fb92427ae41e4649b934ca495991b7852b855".
Proof. vm_compute. reflexivity. Qed.

Example hmac_fox :
  Hmac.hexdigest "key" "The quick brown fox jumps over the lazy dog"
  = "f7bc83f430538424b13298e6aa6fb143ef4d59a14946175997479dbc2d1a3cd8".
Proof. vm_compute. reflexivity. Qed.

Example hmac_jefe :
  Hmac.hexdigest "Jefe" "what do ya want for nothing?"
  = "5bdcc146bf60754e6a042426089575c75a003f089d2739839dec58b964ec3843".
Proof. vm_compute. reflexivity. Qed.

Example hmac_long_key :
  Hmac.hexdigest (string_of_list_ascii (repeat "k"%char 100)) "abc"
  = "b58b2b694fdba0dd76da3ebe99174f728d327560f36ece224e90867972479922".
Proof. vm_compute. reflexivity. Qed.

Example sha256_100a :
  Hmac.hex (Sha256.digest (repeat 97%N 100))
  = "2816597888e4a0d3a36b82b83316ab32680eb8f00f8cd3b904d681246d285a0e".
Proof. vm_compute. reflexivity. Qed.

(** ** UTF-8: encoding undoes decoding *)

Module Utf8Facts.
Import Utf8.
Local Open Scope N_scope.

Ltac props H :=
  unfold cont, between in H;
  rewrite ?andb_true_iff, ?orb_true_iff, ?negb_true_iff,
    ?N.eqb_neq, ?N.leb_le, ?N.ltb_lt in H.

Lemma div_by (q r d : N) : r < d -> (q * d + r) / d = q.
Proof.
  intros Hr. symmetry. apply N.div_unique with r; [assumption | lia].
Qed.

Lemma mod_by (q r d : N) : r < d -> (q * d + r) mod d = r.
Proof.
  intros Hr. symmetry. apply N.mod_unique with q; [assumption | lia].
Qed.

Lemma encode_point_1 b0 : (b0 <? 128) = true -> encode_point b0 = Some [b0].
Proof. intros H. unfold encode_point. now rewrite H. Qed.

Lemma encode_point_2 b0 b1 :
  between 194 223 b0 = true -> cont b1 = true ->
  encode_point ((b0 - 192) * 64 + (b1 - 128)) = Some [b0; b1].
Proof.
  intros H0 H1. props H0. props H1.
  set (c := (b0 - 192) * 64 + (b1 - 128)).
  assert (Hd : c / 64 = b0 - 192) by (apply div_by; lia).
  assert (Hm : c mod 64 = b1 - 128) by (apply mod_by; lia).
  unfold encode_point.
  replace (c <? 128) with false by (symmetry; apply N.ltb_ge; lia).
  replace (c <? 2048) with true by (symmetry; apply N.ltb_lt; lia).
  rewrite Hd, Hm. do 3 f_equal; lia.
Qed.

Lemma encode_point_3 b0 b1 b2 :
  between 224 239 b0 = true ->
  cont b1 && cont b2 && (negb (b0 =? 224) || (160 <=? b1))
    && (negb (b0 =? 237) || (b1 <=? 159)) = true ->
  encode_point ((b0 - 224) * 4096 + (b1 - 128) * 64 + (b2 - 128))
  = Some [b0; b1; b2].
Proof.
  intros H0 H1. props H0. props H1.
  set (c := (b0 - 224) * 4096 + (b1 - 128) * 64 + (b2 - 128)).
  set (hi := (b0 - 224) * 64 + (b1 - 128)).
  assert (Hc : c = hi * 64 + (b2 - 128)) by (subst c hi; lia).
  assert (Hc' : c = (b0 - 224) * 4096 + ((b1 - 128) * 64 + (b2 - 128)))
    by (subst c; lia).
  assert (H64 : c / 64 = hi) by (rewrite Hc; apply div_by; lia).
  assert (Hm : c mod 64 = b2 - 128) by (rewrite Hc; apply mod_by; lia).
  assert (Hd : c / 4096 = b0 - 224) by (rewrite Hc'; apply div_by; lia).
  assert (Hmid : (c / 64) mod 64 = b1 - 128)
    by (rewrite H64; apply mod_by; lia).
  assert (Hsur : between 55296 57343 c = false).
  { unfold between. apply andb_false_iff.
    destruct (N.lt_ge_cases c 55296); [left|right]; apply N.leb_gt;
      [assumption | subst c; lia]. }
  unfold encode_point.
  replace (c <? 128) with false by (symmetry; apply N.ltb_ge; subst c; lia).
  replace (c <? 2048) with false by (symmetry; apply N.ltb_ge; subst c; lia).
  rewrite Hsur.
  replace (c <? 65536) with true by (symmetry; apply N.ltb_lt; subst c; lia).
  rewrite Hd, Hmid, Hm. do 4 f_equal; lia.
Qed.

Lemma encode_point_4 b0 b1 b2 b3 :
  between 240 244 b0 = true ->
  cont b1 && cont b2 && cont b3 && (negb (b0 =? 240) || (144 <=? b1))
    && (negb (b0 =? 244) || (b1 <=? 143)) = true ->
  encode_point ((b0 - 240) * 262144 + (b1 - 128) * 4096
                + (b2 - 128) * 64 + (b3 - 128))
  = Some [b0; b1; b2; b3].
Proof.
  intros H0 H1. props H0. props H1.
  set (c := (b0 - 240) * 262144 + (b1 - 128) * 4096
            + (b2 - 128) * 64 + (b3 - 128)).
  set (hi := (b0 - 240) * 64 + (b1 - 128)).
  set (mid := hi * 64 + (b2 - 128)).
  assert (Hc : c = mid * 64 + (b3 - 128)) by (subst c mid hi; lia).
  assert (Hc' : c = hi * 4096 + ((b2 - 128) * 64 + (b3 - 128)))
    by (subst c mid hi; lia).
  assert (Hc'' : c = (b0 - 240) * 262144
                     + ((b1 - 128) * 4096 + (b2 - 128) * 64 + (b3 - 128)))
    by (subst c mid hi; lia).
  assert (H64 : c / 64 = mid) by (rewrite Hc; apply div_by; lia).
  assert (Hm : c mod 64 = b3 - 128) by (rewrite Hc; apply mod_by; lia).
  assert (H4096 : c / 4096 = hi) by (rewrite Hc'; apply div_by; lia).
  assert (Hd : c / 262144 = b0 - 240) by (rewrite Hc''; apply div_by; lia).
  assert (Hm2 : (c / 64) mod 64 = b2 - 128)
    by (rewrite H64; apply mod_by; subst mid hi; lia).
  assert (Hm3 : (c / 4096) mod 64 = b1 - 128)
    by (rewrite H4096; apply mod_by; lia).
  assert (Hmin : 65536 <= c) by (subst c; lia).
  assert (Hmax : c < 1114112) by (subst c; lia).
  unfold encode_point, between.
  replace (c <? 128) with false by (symmetry; apply N.ltb_ge; lia).
  replace (c <? 2048) with false by (symmetry; apply N.ltb_ge; lia).
  replace (c <=? 57343) with false by (symmetry; apply N.leb_gt; lia).
  rewrite andb_false_r.
  replace (c <? 65536) with false by (symmetry; apply N.ltb_ge; lia).
  replace (c <? 1114112) with true by (symmetry; apply N.ltb_lt; lia).
  rewrite Hd, Hm3, Hm2, Hm. do 5 f_equal; lia.
Qed.

Lemma encode_decode_bytes (n : nat) :
  forall bs cs, (List.length bs <= n)%nat ->
    decode_bytes bs = Some cs -> encode_bytes cs = Some bs.
Proof.
  induction n as [|n IH]; intros bs cs Hlen Hdec.
  - destruct bs; [|simpl in Hlen; lia].
    injection Hdec as <-. reflexivity.
  - destruct bs as [|b0 t0]; [injection Hdec as <-; reflexivity|].
    cbn [decode_bytes] in Hdec. simpl in Hlen.
    destruct (b0 <? 128) eqn:E1.
    { destruct (decode_bytes t0) as [r|] eqn:D; [|discriminate].
      injection Hdec as <-. cbn [encode_bytes].
      rewrite (encode_point_1 _ E1), (IH t0 r) by (assumption || lia).
      reflexivity. }
    destruct (between 194 223 b0) eqn:E2.
    { destruct t0 as [|b1 t1]; [discriminate|].
      destruct (cont b1) eqn:C; [|discriminate].
      destruct (decode_bytes t1) as [r|] eqn:D; [|discriminate].
      injection Hdec as <-. cbn [encode_bytes]. simpl in Hlen.
      rewrite (encode_point_2 _ _ E2 C), (IH t1 r) by (assumption || lia).
      reflexivity. }
    destruct (between 224 239 b0) eqn:E3.
    { destruct t0 as [|b1 [|b2 t2]]; try discriminate.
      match type of Hdec with (if ?c then _ else _) = _ =>
        destruct c eqn:C; [|discriminate] end.
      destruct (decode_bytes t2) as [r|] eqn:D; [|discriminate].
      injection Hdec as <-. cbn [encode_bytes]. simpl in Hlen.
      rewrite (encode_point_3 _ _ _ E3 C), (IH t2 r) by (assumption || lia).
      reflexivity. }
    destruct (between 240 244 b0) eqn:E4; [|discriminate].
    destruct t0 as [|b1 [|b2 [|b3 t3]]]; try discriminate.
    match type of Hdec with (if ?c then _ else _) = _ =>
      destruct c eqn:C; [|discriminate] end.
    destruct (decode_bytes t3) as [r|] eqn:D; [|discriminate].
    injection Hdec as <-. cbn [encode_bytes]. simpl in Hlen.
    rewrite (encode_point_4 _ _ _ _ E4 C), (IH t3 r) by (assumption || lia).
    reflexivity.
Qed.

Lemma encode_bytes_app (a b : list N) :
  encode_bytes (a ++ b)%list
  = match encode_bytes a, encode_bytes b with
    | Some x, Some y => Some (x ++ y)%list
    | _, _ => None
    end.
Proof.
  induction a as [|c a IH]; simpl.
  - now destruct (encode_bytes b).
  - rewrite IH. destruct (encode_point c), (encode_bytes a), (encode_bytes b);
      try reflexivity.
    now rewrite app_assoc.
Qed.

Lemma encode_bytes_ascii (cs : list N) :
  Forall (fun c => c < 128) cs -> encode_bytes cs = Some cs.
Proof.
  induction 1 as [|c cs Hc _ IH]; [reflexivity|].
  simpl. rewrite IH, encode_point_1 by now apply N.ltb_lt.
  reflexivity.
Qed.

Lemma to_string_bytes_of (s : string) : to_string (Hmac.bytes_of s) = s.
Proof.
  unfold to_string, Hmac.bytes_of. rewrite map_map.
  rewrite (map_ext _ (fun c => c)) by apply ascii_N_embedding.
  rewrite map_id. apply string_of_list_ascii_of_string.
Qed.

Lemma to_string_app (a b : list N) :
  to_string (a ++ b)%list = (to_string a ++ to_string b)%string.
Proof.
  unfold to_string. rewrite map_app.
  induction (map ascii_of_N a) as [|c l IH]; simpl; [reflexivity|].
  now rewrite IH.
Qed.

(** Decoding a body and encoding the text again gives the body back. *)
Lemma encode_decode (payload : string) (text : list N) :
  decode payload = Some text -> encode text = Some payload.
Proof.
  unfold decode, encode. intros H.
  rewrite (encode_decode_bytes (List.length (Hmac.bytes_of payload))
             (Hmac.bytes_of payload) text) by (assumption || lia).
  simpl. now rewrite to_string_bytes_of.
Qed.

End Utf8Facts.

(** ** The signature that is computed *)

Module SignatureFacts.
Local Open Scope N_scope.

Lemma uint_ascii (d : Decimal.uint) :
  Forall (fun c => c < 128) (Hmac.bytes_of (NilEmpty.string_of_uint d)).
Proof.
  induction d; simpl; constructor; (assumption || reflexivity).
Qed.

Lemma str_of_int_ascii (z : Z) :
  Forall (fun c => c < 128) (Hmac.bytes_of (Py.str_of_int z)).
Proof.
  unfold Py.str_of_int, NilZero.string_of_int.
  assert (H : forall d, Forall (fun c => c < 128)
                          (Hmac.bytes_of (NilZero.string_of_uint d))).
  { intros d. destruct d; try apply uint_ascii.
    repeat constructor. }
  destruct (Z.to_int z); simpl; [apply H|].
  constructor; [reflexivity | apply H].
Qed.

Lemma bytes_of_app (a b : string) :
  Hmac.bytes_of (a ++ b) = (Hmac.bytes_of a ++ Hmac.bytes_of b)%list.
Proof.
  unfold Hmac.bytes_of. induction a as [|c a IH]; simpl; [reflexivity|].
  now rewrite IH.
Qed.

(** The text that is signed is the decimal timestamp, a dot and the body
    as received; the key is the secret in UTF-8. *)
Lemma compute_signature_eq (payload : string) (ts : Z) (secret : list N)
      (text : list N) (key : string) :
  Utf8.decode payload = Some text ->
  Utf8.encode secret = Some key ->
  _compute_fedapay_signature payload ts secret
  = Ret (Some (Hmac.hexdigest key (Py.str_of_int ts ++ "." ++ payload))).
Proof.
  intros Hd Hk. unfold _compute_fedapay_signature. rewrite Hd, Hk.
  unfold Utf8.encode at 1.
  rewrite !Utf8Facts.encode_bytes_app.
  unfold Utf8.text_of.
  rewrite !Utf8Facts.encode_bytes_ascii
    by (apply str_of_int_ascii || (repeat constructor)).
  apply Utf8Facts.encode_decode in Hd. unfold Utf8.encode in Hd.
  destruct (Utf8.encode_bytes text) as [bs|]; [|discriminate].
  simpl in Hd. injection Hd as Hd. simpl option_map.
  change (46 :: bs) with ([46] ++ bs)%list.
  rewrite !Utf8Facts.to_string_app, Utf8Facts.to_string_bytes_of, Hd.
  reflexivity.
Qed.

Lemma compute_signature_not_utf8 (payload : string) (ts : Z) (secret : list N) :
  Utf8.decode payload = None ->
  _compute_fedapay_signature payload ts secret = Ret None.
Proof. intros H. unfold _compute_fedapay_signature. now rewrite H. Qed.

(** Hexadecimal digests are made of the characters 0-9 and a-f. *)
Definition lower_hex (c : ascii) : bool :=
  Py.isdigit c || Py.in_range 97 102 c.

Lemma hex_digit_lower (n : N) : n < 16 -> lower_hex (Hmac.hex_digit n) = true.
Proof.
  intros H.
  assert (Hn : In n [0;1;2;3;4;5;6;7;8;9;10;11;12;13;14;15]).
  { simpl. lia. }
  simpl in Hn. repeat (destruct Hn as [<-|Hn]; [reflexivity|]). destruct Hn.
Qed.

Lemma lower_hex_facts (c : ascii) :
  lower_hex c = true -> Py.isascii c = true /\ Py.lower_char c = c.
Proof.
  unfold lower_hex, Py.isdigit, Py.isascii, Py.lower_char, Py.in_range.
  intros H.
  rewrite ?orb_true_iff, ?andb_true_iff, ?N.leb_le in H.
  split; [apply N.ltb_lt; lia|].
  replace ((65 <=? Py.code c) && (Py.code c <=? 90)) with false
    by (symmetry; apply andb_false_iff; rewrite !N.leb_gt; lia).
  replace ((192 <=? Py.code c) && (Py.code c <=? 222)) with false
    by (symmetry; apply andb_false_iff; rewrite !N.leb_gt; lia).
  reflexivity.
Qed.

Lemma hex_lower_hex (bs : list N) :
  Forall (fun b => b < 256) bs ->
  Py.forallb_str lower_hex (Hmac.hex bs) = true.
Proof.
  unfold Hmac.hex. induction 1 as [|b bs Hb _ IH]; [reflexivity|].
  simpl. rewrite !hex_digit_lower, IH; [reflexivity| |].
  - apply N.mod_lt. discriminate.
  - apply N.Div0.div_lt_upper_bound. lia.
Qed.

Lemma be_bytes_small (k : nat) (x : N) :
  Forall (fun b => b < 256) (Sha256.be_bytes k x).
Proof.
  unfold Sha256.be_bytes. apply Forall_forall. intros b Hb.
  apply in_map_iff in Hb. destruct Hb as [i [<- _]].
  apply N.mod_lt. discriminate.
Qed.

Lemma digest_small (msg : list N) :
  Forall (fun b => b < 256) (Sha256.digest msg).
Proof.
  unfold Sha256.digest.
  destruct (fold_left _ _ _) as [[[[[[[a b] c] d] e] f] g] h].
  apply Forall_forall. intros x Hx. apply in_flat_map in Hx.
  destruct Hx as [y [_ Hx]].
  exact (proj1 (Forall_forall _ _) (be_bytes_small 4 y) x Hx).
Qed.

Lemma digest_nonempty (msg : list N) : Sha256.digest msg <> [].
Proof.
  unfold Sha256.digest.
  destruct (fold_left _ _ _) as [[[[[[[a b] c] d] e] f] g] h].
  discriminate.
Qed.

Lemma forallb_str_impl (p q : ascii -> bool) (s : string) :
  (forall c, p c = true -> q c = true) ->
  Py.forallb_str p s = true -> Py.forallb_str q s = true.
Proof.
  intros Hpq. induction s as [|c s IH]; simpl; [reflexivity|].
  intros H. apply andb_prop in H. destruct H as [H1 H2].
  now rewrite (Hpq _ H1), IH.
Qed.

Lemma lower_fixed (s : string) :
  Py.forallb_str lower_hex s = true -> Py.lower s = s.
Proof.
  induction s as [|c s IH]; simpl; [reflexivity|].
  intros H. apply andb_prop in H. destruct H as [H1 H2].
  now rewrite (proj2 (lower_hex_facts _ H1)), IH.
Qed.

Lemma hexdigest_lower_hex (key msg : string) :
  Py.forallb_str lower_hex (Hmac.hexdigest key msg) = true.
Proof. apply hex_lower_hex, digest_small. Qed.

Lemma hexdigest_nonempty (key msg : string) :
  Py.nonempty (Hmac.hexdigest key msg) = true.
Proof.
  unfold Hmac.hexdigest, Hmac.sha256_mac.
  generalize (digest_nonempty
    (map (N.lxor 92) (Hmac.block_key (Hmac.bytes_of key))
     ++ Sha256.digest (map (N.lxor 54) (Hmac.block_key (Hmac.bytes_of key))
                       ++ Hmac.bytes_of msg))%list).
  destruct (Sha256.digest _) as [|b bs]; [congruence|]. reflexivity.
Qed.

Lemma hexdigest_lower (key msg : string) :
  Py.lower (Hmac.hexdigest key msg) = Hmac.hexdigest key msg.
Proof. apply lower_fixed, hexdigest_lower_hex. Qed.

Lemma hexdigest_ascii (key msg : string) :
  Py.forallb_str Py.isascii (Hmac.hexdigest key msg) = true.
Proof.
  apply forallb_str_impl with lower_hex;
    [intros c Hc; apply lower_hex_facts, Hc | apply hexdigest_lower_hex].
Qed.

End SignatureFacts.

(** ** Verification of the signature *)

Section VerifyFacts.
Context {X : Externals}.

Lemma strip_blank (s : list N) :
  forallb Utf8.isspace s = true -> Utf8.strip s = [].
Proof.
  intros H. unfold Utf8.strip.
  assert (L : Utf8.lstrip s = []).
  { induction s as [|c s IH]; [reflexivity|].
    simpl in *. apply andb_prop in H. destruct H as [-> H]. auto. }
  now rewrite L.
Qed.

Lemma secret_blank_empty : secret_blank -> webhook_secret = [].
Proof.
  unfold secret_blank, webhook_secret.
  destruct FEDAPAY_AUTH_KEY; [apply strip_blank | reflexivity].
Qed.

Lemma verify_blank_secret (payload : string) (h : option string) :
  webhook_secret = [] -> verify_signature_fedapay_v1 payload h = Ret false.
Proof. intros E. unfold verify_signature_fedapay_v1. now rewrite E. Qed.

Lemma verify_no_header (payload : string) :
  verify_signature_fedapay_v1 payload None = Ret false.
Proof.
  unfold verify_signature_fedapay_v1. now destruct webhook_secret.
Qed.

Lemma int_empty : Py.int "" = None.
Proof. reflexivity. Qed.

Lemma lower_nonempty (s : string) : Py.nonempty (Py.lower s) = Py.nonempty s.
Proof. now destruct s. Qed.

Lemma parse_empty : _parse_fedapay_signature_header "" = (None, None).
Proof. reflexivity. Qed.

(** The verification answers [True] exactly when the secret is set and the
    header carries the signature of the body. *)
Lemma verify_true_iff (payload : string) (h : option string) :
  verify_signature_fedapay_v1 payload h = Ret true
  <-> webhook_secret <> []
      /\ exists header, h = Some header /\ signature_matches payload header.
Proof.
  unfold verify_signature_fedapay_v1. split.
  - destruct webhook_secret as [|c secret] eqn:Es; [discriminate|].
    destruct h as [header|]; [|discriminate].
    destruct (Py.nonempty header); simpl; [|discriminate].
    destruct (_parse_fedapay_signature_header header) as [[ts|] [sig|]] eqn:Ep;
      try discriminate.
    destruct (Py.nonempty ts), (Py.nonempty sig); simpl; try discriminate.
    destruct (Py.int ts) as [n|] eqn:En; [|discriminate].
    destruct (Utf8.decode payload) as [text|] eqn:Ed.
    2:{ now rewrite SignatureFacts.compute_signature_not_utf8. }
    destruct (Utf8.encode (c :: secret)) as [key|] eqn:Ek.
    2:{ unfold _compute_fedapay_signature. rewrite Ed, Ek.
        match goal with
        | |- context [match Utf8.encode ?t with _ => _ end] =>
            destruct (Utf8.encode t)
        end; simpl; discriminate. }
    rewrite (SignatureFacts.compute_signature_eq _ n _ _ _ Ed Ek).
    rewrite SignatureFacts.hexdigest_nonempty. simpl.
    unfold compare_digest.
    destruct (_ && _); [|discriminate].
    intros H. injection H as H. apply String.eqb_eq in H.
    split; [discriminate|].
    exists header. split; [reflexivity|].
    exists ts, sig, n, text, key. rewrite Es. auto.
  - intros [Hs [header [-> [ts [sig [n [text [key [Hp [Hn [Hd [Hk Heq]]]]]]]]]]]].
    destruct webhook_secret as [|c secret] eqn:Es; [congruence|].
    assert (Hne : Py.nonempty header = true).
    { destruct header; [|reflexivity]. rewrite parse_empty in Hp. discriminate. }
    rewrite Hne, Hp. simpl.
    assert (Hts : Py.nonempty ts = true).
    { destruct ts; [rewrite int_empty in Hn; discriminate | reflexivity]. }
    assert (Hsig : Py.nonempty sig = true).
    { rewrite <- lower_nonempty, Heq, lower_nonempty.
      apply SignatureFacts.hexdigest_nonempty. }
    rewrite Hts, Hsig, Hn. simpl.
    rewrite (SignatureFacts.compute_signature_eq _ n _ _ _ Hd Hk).
    rewrite SignatureFacts.hexdigest_nonempty. simpl.
    unfold compare_digest. rewrite Heq.
    rewrite !SignatureFacts.hexdigest_lower, !SignatureFacts.hexdigest_ascii.
    cbn [andb]. now rewrite String.eqb_refl.
Qed.

End VerifyFacts.

Example json_approved :
  @json_loads demo approved_body
  = Ret (PDict [("name", PStr "transaction.approved");
                ("entity", PDict [("id", PStr "tx_1");
                                  ("status", PStr "approved")])]).
Proof. vm_compute. reflexivity. Qed.

Example json_samples :
  map Json.loads [dq "{'a':1,'a':2}"; " [1, -20 ,true,null] "; "01"; "{"; "1 2"]
  = [Ret (PDict [("a", PInt 2)]);
     Ret (PList [PInt 1; PInt (-20); PBool true; PNone]);
     Exc JSONDecodeError; Exc JSONDecodeError; Exc JSONDecodeError].
Proof. vm_compute. reflexivity. Qed.

Example demo_delivery :
  serve (@fedapay_webhook demo
           (post approved_body
                 (Some (signed_header demo_secret 1700000000 approved_body))))
        demo_world
  = (JsonResponse 200 "received",
     {| payments := [{| p_id := 1; p_enrollment := 7; p_amount := 500000;
                        p_method := ""; p_transaction_id := "tx_1";
                        p_status := "completed"; p_notes := "" |}];
        enrollments := [{| e_id := 7; e_student := 3; e_course := 2;
                           e_status := "active" |}];
        courses := courses demo_world;
        session := []; flashes := [];
        journal := [("INFO", "WEBHOOK SUCCESS : Cours débloqué")];
        writes := [PaymentSaved {| p_id := 1; p_enrollment := 7;
                                   p_amount := 500000; p_method := "";
                                   p_transaction_id := "tx_1";
                                   p_status := "completed"; p_notes := "" |};
                   EnrollmentSaved {| e_id := 7; e_student := 3; e_course := 2;
                                      e_status := "active" |}] |}).
Proof. vm_compute. reflexivity. Qed.

(** ** The webhook and the signature *)

Section WebhookGate.
Context {X : Externals}.

Ltac run := unfold bind, lift, ret, raise, try_except, log, message; simpl.

(** A request whose verification answers [False] is refused: 403 with
    the body [forbidden], and only the log grows. *)
Lemma webhook_forbidden (request : request) (w : world) :
  method request = "POST" ->
  verify_signature_fedapay_v1 (body request) (x_fedapay_signature request)
  = Ret false ->
  fst (serve (fedapay_webhook request) w) = JsonResponse 403 "forbidden"
  /\ same_state w (snd (serve (fedapay_webhook request) w)).
Proof.
  intros Hm Hv. unfold serve, fedapay_webhook. rewrite Hm. simpl.
  unfold bind at 1. unfold lift at 1. rewrite Hv. simpl.
  destruct DEBUG; run; repeat split.
Qed.

(** A request whose verification answers [True] is processed. *)
Lemma webhook_accepted (request : request) (w : world) :
  method request = "POST" ->
  verify_signature_fedapay_v1 (body request) (x_fedapay_signature request)
  = Ret true ->
  fedapay_webhook request w
  = try_except (webhook_process (body request))
      (fun _ => bind (log "ERROR" "WEBHOOK ERROR")
                  (fun _ => ret (JsonResponse 200 "ignored"))) w.
Proof.
  intros Hm Hv. unfold fedapay_webhook. rewrite Hm. simpl.
  unfold bind at 1. unfold lift at 1. now rewrite Hv.
Qed.

(** An exception of the verification leaves the view: a 500. *)
Lemma webhook_verification_raises (request : request) (w : world) (e : exn) :
  method request = "POST" ->
  verify_signature_fedapay_v1 (body request) (x_fedapay_signature request)
  = Exc e ->
  fedapay_webhook request w = (Exc e, w).
Proof.
  intros Hm Hv. unfold fedapay_webhook. rewrite Hm. simpl.
  unfold bind at 1. unfold lift at 1. now rewrite Hv.
Qed.

(** The webhook processes an event only when the secret is set and the
    header carries the signature of the body received. *)
Lemma webhook_processes_only_signed (request : request) (w : world) :
  method request = "POST" ->
  (forall e, fst (serve (fedapay_webhook request) w) <> ServerError e) ->
  fst (serve (fedapay_webhook request) w) <> JsonResponse 403 "forbidden" ->
  exists header, x_fedapay_signature request = Some header
                 /\ signature_matches (body request) header.
Proof.
  intros Hm Hne Hnf.
  destruct (verify_signature_fedapay_v1 (body request)
              (x_fedapay_signature request)) as [[|]|e] eqn:Hv.
  - apply verify_true_iff in Hv. tauto.
  - destruct (webhook_forbidden request w Hm Hv) as [Hr _]. contradiction.
  - exfalso. unfold serve in Hne.
    rewrite (webhook_verification_raises request w e Hm Hv) in Hne.
    assert (e <> Http404).
    { intros ->. clear Hne Hnf. revert Hv. unfold verify_signature_fedapay_v1.
      destruct webhook_secret; [discriminate|].
      destruct (x_fedapay_signature request); [|discriminate].
      destruct (Py.nonempty _); simpl; [|discriminate].
      destruct (_parse_fedapay_signature_header _) as [[?|] [?|]];
        try discriminate.
      destruct (negb _ || negb _); [discriminate|].
      destruct (Py.int _); [|discriminate].
      unfold _compute_fedapay_signature.
      destruct (Utf8.decode _); [|discriminate].
      destruct (Utf8.encode _); [|discriminate].
      destruct (Utf8.encode _); [|discriminate].
      destruct (negb _); [discriminate|].
      unfold compare_digest. destruct (_ && _); discriminate. }
    apply (Hne e). destruct e; simpl; congruence.
Qed.





End WebhookGate.

(** C9. When the signing secret FEDAPAY_AUTH_KEY is unset or blank, every
    POST to the webhook is answered 403 with the body [forbidden], whatever
    its body and its header; no row, session value or message changes and
    no row is written, so no event is processed. *)
Theorem webhook_blank_secret_forbidden
  (X : Externals) (request : request) (w : world) :
  secret_blank ->
  method request = "POST" ->
  fst (serve (fedapay_webhook request) w) = JsonResponse 403 "forbidden"
  /\ same_state w (snd (serve (fedapay_webhook request) w)).
Proof.
  intros Hb Hm. apply webhook_forbidden; [assumption|].
  apply verify_blank_secret, secret_blank_empty, Hb.
Qed.

(** The header is signed with the key the blank secret strips to, so it
    would verify if a blank key were accepted. *)
Lemma webhook_blank_secret_forbidden_witness :
  let request :=
    post approved_body (Some (signed_header "" 1700000000 approved_body)) in
  @signature_matches demo_blank (body request)
    (signed_header "" 1700000000 approved_body)
  /\ fst (serve (@fedapay_webhook demo_blank request) demo_world)
     = JsonResponse 403 "forbidden"
  /\ same_state demo_world
       (snd (serve (@fedapay_webhook demo_blank request) demo_world)).
Proof.
  intros request. split.
  - exists "1700000000",
      (Hmac.hexdigest "" ("1700000000." ++ approved_body)),
      1700000000%Z, (Utf8.text_of approved_body), "".
    repeat split; vm_compute; reflexivity.
  - apply (@webhook_blank_secret_forbidden demo_blank request demo_world);
      reflexivity.
Defined.

(** C1, where the code departs from it.  With the secret set and a body in
    UTF-8, a POST whose header is [t=1,v1=] followed by the Latin-1 letter
    233 is not answered 403: [hmac.compare_digest] raises [TypeError] on a
    text that is not ASCII, nothing catches it, and the view fails with a
    500.  The state is untouched. *)
Theorem webhook_non_ascii_signature_raises
  (X : Externals) (w : world) (payload : string) :
  webhook_secret <> [] ->
  Utf8.encode webhook_secret <> None ->
  Utf8.decode payload <> None ->
  serve (fedapay_webhook (post payload (Some non_ascii_header))) w
  = (ServerError TypeError, w).
Proof.
  intros Hs Hk Hd.
  destruct (Utf8.encode webhook_secret) as [key|] eqn:Ek; [|congruence].
  destruct (Utf8.decode payload) as [text|] eqn:Ed; [|congruence].
  unfold serve.
  rewrite webhook_verification_raises with (e := TypeError);
    [reflexivity | reflexivity |].
  simpl. unfold verify_signature_fedapay_v1.
  destruct webhook_secret as [|c secret] eqn:Es; [congruence|].
  change (Py.nonempty non_ascii_header) with true.
  change (_parse_fedapay_signature_header non_ascii_header)
    with (Some "1", Some (String (ascii_of_N 233) EmptyString)).
  cbn [negb orb Py.nonempty]. change (Py.int "1") with (Some 1%Z). cbv iota.
  rewrite (SignatureFacts.compute_signature_eq _ 1 _ _ _ Ed Ek).
  rewrite SignatureFacts.hexdigest_nonempty. cbn [negb].
  unfold compare_digest.
  rewrite SignatureFacts.hexdigest_lower, SignatureFacts.hexdigest_ascii.
  reflexivity.
Qed.

Lemma webhook_non_ascii_signature_raises_witness :
  @webhook_secret demo <> []
  /\ Utf8.encode (@webhook_secret demo) <> None
  /\ Utf8.decode approved_body <> None
  /\ serve (@fedapay_webhook demo
              (post approved_body (Some non_ascii_header))) demo_world
     = (ServerError TypeError, demo_world).
Proof.
  assert (H1 : @webhook_secret demo <> []) by (vm_compute; discriminate).
  assert (H2 : Utf8.encode (@webhook_secret demo) <> None)
    by (vm_compute; discriminate).
  assert (H3 : Utf8.decode approved_body <> None) by (vm_compute; discriminate).
  split; [exact H1 | split; [exact H2 | split; [exact H3 |]]].
  exact (webhook_non_ascii_signature_raises demo demo_world approved_body H1 H2 H3).
Defined.

(** So the refusal does not hold of every request: in the demo setting the
    request with that header is not verified and is not answered 403. *)
Lemma non_ascii_signature_not_forbidden :
  @verify_signature_fedapay_v1 demo approved_body (Some non_ascii_header)
  = Exc TypeError
  /\ fst (serve (@fedapay_webhook demo
                   (post approved_body (Some non_ascii_header))) demo_world)
     = ServerError TypeError
  /\ ~ unverified_is_forbidden.
Proof.
  assert (Hv : @verify_signature_fedapay_v1 demo approved_body
                 (Some non_ascii_header) = Exc TypeError)
    by (vm_compute; reflexivity).
  assert (Hr : fst (serve (@fedapay_webhook demo
                             (post approved_body (Some non_ascii_header)))
                      demo_world) = ServerError TypeError)
    by (vm_compute; reflexivity).
  split; [exact Hv | split; [exact Hr|]].
  intros H.
  specialize (H demo (post approved_body (Some non_ascii_header)) demo_world
                eq_refl).
  rewrite Hr in H. simpl in H. rewrite Hv in H.
  assert (ServerError TypeError = JsonResponse 403 "forbidden");
    [apply H | ]; discriminate.
Qed.

(** ** The parser of the signature header *)

Section ParserFacts.

Lemma fold_pair_cons kv kvs acc :
  fold_left pair_step (kv :: kvs) acc = fold_left pair_step kvs (pair_step acc kv).
Proof. reflexivity. Qed.

Lemma fold_header_step (l : list string) (acc : option string * option string) :
  fold_left header_step l acc = fold_left pair_step (map key_value l) acc.
Proof.
  revert acc. induction l as [|p l IH]; intros acc; [reflexivity|].
  simpl. apply IH.
Qed.

(** The parser is the loop over the pairs, then the scan when the loop has
    left no signature. *)
Lemma parse_structured (h : string) :
  _parse_fedapay_signature_header h
  = (let '(t, s) := structured h in
     if negb (Py.truthy_opt s)
     then match Py.re_search_hex64 h with
          | Some m => (t, Some m)
          | None => (t, s)
          end
     else (t, s)).
Proof.
  unfold structured, pairs. rewrite <- fold_header_step.
  destruct h; reflexivity.
Qed.

Lemma step_timestamp t s k v :
  fst (pair_step (t, s) (k, v)) = if k =? "t" then Some v else t.
Proof.
  unfold pair_step. destruct (k =? "t"); [reflexivity|].
  destruct (k =? "v1"); [reflexivity|].
  destruct (_ && _); [reflexivity|]. destruct (_ && _); reflexivity.
Qed.

Lemma fold_timestamp kvs : forall t s,
  fst (fold_left pair_step kvs (t, s))
  = match last_value "t" kvs with Some v => Some v | None => t end.
Proof.
  induction kvs as [|[k v] kvs IH]; intros t s; [reflexivity|].
  rewrite fold_pair_cons. pose proof (step_timestamp t s k v) as Hst.
  destruct (pair_step (t, s) (k, v)) as [t' s']. simpl in Hst. subst t'.
  rewrite IH. simpl last_value.
  destruct (last_value "t" kvs); [reflexivity|].
  now destruct (k =? "t").
Qed.

Lemma step_keeps t s k v :
  Py.truthy_opt s = true -> k <> "v1" ->
  snd (pair_step (t, s) (k, v)) = s.
Proof.
  intros Hs Hk. unfold pair_step. rewrite Hs.
  destruct (k =? "t"); [reflexivity|].
  destruct (String.eqb_spec k "v1"); [contradiction|].
  simpl. rewrite !andb_false_r. reflexivity.
Qed.

Lemma fold_keeps post : forall t s,
  Py.truthy_opt s = true ->
  Forall (fun kv => fst kv <> "v1") post ->
  snd (fold_left pair_step post (t, s)) = s.
Proof.
  induction post as [|[k v] post IH]; intros t s Hs Hp; [reflexivity|].
  inversion Hp as [|? ? Hk Hrest]; subst. simpl in Hk. rewrite fold_pair_cons.
  pose proof (step_keeps t s k v Hs Hk) as Hst.
  destruct (pair_step (t, s) (k, v)) as [t' s']. simpl in Hst. subst s'.
  now apply IH.
Qed.

Lemma nonempty_true (s : string) : s <> "" -> Py.nonempty s = true.
Proof. destruct s; [congruence | reflexivity]. Qed.

(** On a pair with a key other than [t] and a value, while no signature is
    held, the loop takes the value, whatever the key. *)
Lemma candidate_step t s k v :
  Py.truthy_opt s = false -> k <> "t" -> k <> "" -> v <> "" ->
  pair_step (t, s) (k, v) = (t, Some v).
Proof.
  intros Hs Hk Hk' Hv. unfold pair_step. rewrite Hs.
  destruct (String.eqb_spec k "t"); [contradiction|].
  destruct (k =? "v1"); [reflexivity|].
  destruct (k =? "v0"); [reflexivity|].
  now rewrite (nonempty_true k), (nonempty_true v).
Qed.

Lemma no_candidate_step t s kv :
  Py.truthy_opt s = false -> no_candidate kv ->
  Py.truthy_opt (snd (pair_step (t, s) kv)) = false.
Proof.
  destruct kv as [k v]. unfold no_candidate. simpl.
  intros Hs [-> | [-> | ->]]; unfold pair_step; rewrite Hs; simpl.
  - assumption.
  - assumption.
  - destruct (k =? "t"); [assumption|].
    destruct (k =? "v1"); [reflexivity|].
    destruct (k =? "v0"); [reflexivity|]. simpl.
    rewrite andb_false_r. assumption.
Qed.

Lemma fold_no_candidate pre : forall t s,
  Py.truthy_opt s = false -> Forall no_candidate pre ->
  Py.truthy_opt (snd (fold_left pair_step pre (t, s))) = false.
Proof.
  induction pre as [|kv pre IH]; intros t s Hs Hp; [assumption|].
  inversion Hp as [|? ? Hkv Hrest]; subst. rewrite fold_pair_cons.
  pose proof (no_candidate_step t s kv Hs Hkv) as Hst.
  destruct (pair_step (t, s) kv) as [t' s']. now apply IH.
Qed.

Lemma last_value_none k kvs :
  last_value k kvs = None -> Forall (fun kv => fst kv <> k) kvs.
Proof.
  induction kvs as [|[k' v'] kvs IH]; simpl; intros H; constructor.
  - simpl. destruct (last_value k kvs); [discriminate|].
    destruct (String.eqb_spec k' k); [discriminate | assumption].
  - apply IH. now destruct (last_value k kvs).
Qed.

Lemma last_value_split k kvs v :
  last_value k kvs = Some v ->
  exists pre post, kvs = (pre ++ (k, v) :: post)%list
                   /\ Forall (fun kv => fst kv <> k) post.
Proof.
  induction kvs as [|[k' v'] kvs IH]; simpl; [discriminate|].
  destruct (last_value k kvs) as [x|] eqn:E.
  - intros H. injection H as ->.
    destruct (IH eq_refl) as [pre [post [-> Hp]]].
    now exists ((k', v') :: pre), post.
  - destruct (String.eqb_spec k' k) as [->|]; [|discriminate].
    intros H. injection H as ->.
    exists [], kvs. split; [reflexivity | now apply last_value_none].
Qed.

Lemma fold_pair_app pre post acc :
  fold_left pair_step (pre ++ post)%list acc
  = fold_left pair_step post (fold_left pair_step pre acc).
Proof. apply fold_left_app. Qed.

(** The last pair of key [v1], when it has a value, gives the signature. *)
Lemma fold_last_v1 kvs v acc :
  last_value "v1" kvs = Some v -> v <> "" ->
  snd (fold_left pair_step kvs acc) = Some v.
Proof.
  intros Hl Hv. destruct (last_value_split _ _ _ Hl) as [pre [post [-> Hp]]].
  rewrite fold_pair_app. rewrite fold_pair_cons.
  destruct (fold_left pair_step pre acc) as [t s].
  assert (Hstep : pair_step (t, s) ("v1", v) = (t, Some v)) by reflexivity.
  rewrite Hstep. apply fold_keeps; [|assumption].
  simpl. now apply nonempty_true.
Qed.

(** A pair with a key other than [t] and a value, met while the loop holds
    no signature, gives the signature when no pair of key [v1] follows. *)
Lemma fold_candidate pre k v post :
  Py.truthy_opt (snd (fold_left pair_step pre (None, None))) = false ->
  k <> "t" -> k <> "" -> v <> "" ->
  Forall (fun kv => fst kv <> "v1") post ->
  snd (fold_left pair_step (pre ++ (k, v) :: post)%list (None, None)) = Some v.
Proof.
  intros Hs Hk Hk' Hv Hpost.
  rewrite fold_pair_app, fold_pair_cons.
  destruct (fold_left pair_step pre (None, None)) as [t s]. simpl in Hs.
  rewrite (candidate_step t s k v Hs Hk Hk' Hv).
  apply fold_keeps; [|assumption]. simpl. now apply nonempty_true.
Qed.

(** So does the first such pair of the header. *)
Lemma fold_first_candidate pre k v post :
  Forall no_candidate pre -> k <> "t" -> k <> "" -> v <> "" ->
  Forall (fun kv => fst kv <> "v1") post ->
  snd (fold_left pair_step (pre ++ (k, v) :: post)%list (None, None)) = Some v.
Proof.
  intros Hpre. apply fold_candidate.
  exact (fold_no_candidate pre None None eq_refl Hpre).
Qed.

Lemma split_no_delim (a : string) :
  no_delim a = true -> Py.re_split_delims a = [a].
Proof.
  unfold no_delim. induction a as [|c a IH]; simpl; [reflexivity|].
  intros H. apply andb_prop in H. destruct H as [Hc Ha].
  apply negb_true_iff in Hc. rewrite Hc, (IH Ha). reflexivity.
Qed.

Lemma split_at_delim (a b : string) (d : ascii) :
  no_delim a = true -> Py.is_delim d = true ->
  Py.re_split_delims (a ++ String d b) = a :: Py.re_split_delims b.
Proof.
  unfold no_delim. intros Ha Hd. induction a as [|c a IH]; simpl.
  - now rewrite Hd.
  - simpl in Ha. apply andb_prop in Ha. destruct Ha as [Hc Ha].
    apply negb_true_iff in Hc. rewrite Hc, (IH Ha). reflexivity.
Qed.

Lemma take_spec (p : ascii -> bool) (n : nat) : forall s m,
  Py.take_while_n p n s = Some m
  <-> exists post, s = m ++ post /\ String.length m = n
                   /\ Py.forallb_str p m = true.
Proof.
  induction n as [|n IH]; intros s m; simpl.
  - split.
    + intros H. injection H as <-. now exists s.
    + intros [post [-> [Hl _]]]. destruct m; [reflexivity | discriminate].
  - split.
    + destruct s as [|c s]; [discriminate|].
      destruct (p c) eqn:Hc; [|discriminate].
      destruct (Py.take_while_n p n s) as [m'|] eqn:E; [|discriminate].
      simpl. intros H. injection H as <-.
      apply IH in E. destruct E as [post [-> [Hl Hp]]].
      exists post. simpl. now rewrite Hc, Hl, Hp.
    + intros [post [-> [Hl Hp]]].
      destruct m as [|c m]; [discriminate|]. simpl in *.
      apply andb_prop in Hp. destruct Hp as [Hc Hp]. rewrite Hc.
      injection Hl as Hl.
      assert (E : Py.take_while_n p n (m ++ post) = Some m)
        by (apply IH; now exists post).
      now rewrite E.
Qed.

Lemma re_search_eq (s : string) :
  Py.re_search_hex64 s
  = match Py.take_while_n Py.ishex 64 s with
    | Some m => Some m
    | None => match s with
              | String _ s' => Py.re_search_hex64 s'
              | EmptyString => None
              end
    end.
Proof. destruct s; reflexivity. Qed.

Lemma re_search_leftmost (h m : string) :
  Py.re_search_hex64 h = Some m -> leftmost_hex64 h m.
Proof.
  revert m. induction h as [|c h IH]; intros m; rewrite re_search_eq;
    destruct (Py.take_while_n Py.ishex 64 _) as [m0|] eqn:E.
  - intros H. injection H as <-. apply take_spec in E.
    destruct E as [post [Hh [Hl Hp]]].
    exists "", post. repeat split; try assumption. simpl. intros. lia.
  - discriminate.
  - intros H. injection H as <-. apply take_spec in E.
    destruct E as [post [Hh [Hl Hp]]].
    exists "", post. repeat split; try assumption. simpl. intros. lia.
  - intros H. destruct (IH m H) as [pre [post [-> [Hl [Hp Hmin]]]]].
    exists (String c pre), post. repeat split; try assumption.
    intros pre' m' post' Hh Hl' Hp'.
    destruct pre' as [|c' pre'].
    + exfalso. simpl in Hh.
      assert (E' : Py.take_while_n Py.ishex 64 (String c (pre ++ m ++ post))
                   = Some m')
        by (apply take_spec; exists post'; now rewrite Hh).
      rewrite E in E'. discriminate.
    + simpl in Hh. injection Hh as -> Hh.
      simpl. apply le_n_S. now apply (Hmin pre' m' post').
Qed.

Lemma re_search_none (h : string) :
  Py.re_search_hex64 h = None -> ~ has_hex64 h.
Proof.
  induction h as [|c h IH]; rewrite re_search_eq;
    destruct (Py.take_while_n Py.ishex 64 _) as [m0|] eqn:E;
    try discriminate; intros H [pre [m [post [Hh [Hl Hp]]]]].
  - destruct pre; [|discriminate]. simpl in Hh.
    assert (E' : Py.take_while_n Py.ishex 64 "" = Some m)
      by (apply take_spec; exists post; now rewrite Hh).
    rewrite E in E'. discriminate.
  - destruct pre as [|c' pre].
    + simpl in Hh.
      assert (E' : Py.take_while_n Py.ishex 64 (String c h) = Some m)
        by (apply take_spec; exists post; now rewrite Hh).
      rewrite E in E'. discriminate.
    + simpl in Hh. injection Hh as -> Hh.
      apply (IH H). now exists pre, m, post.
Qed.

End ParserFacts.

(** C5, as the code has it.  The header is cut at every comma and semicolon
    and each part is read as a key and a value.  The timestamp is the value
    of the last pair of key [t].  The signature is the value of the last
    pair of key [v1] when that value is not empty.  The value of a pair of
    key [v0] is the signature when it is not empty, no pair of key [v1]
    follows and no pair before it could give a signature (each has the key
    [t], no key or no value).  When the pairs leave no signature, the
    leftmost run of 64 hexadecimal characters of the raw header is the
    signature, and without such a run the answer of the pairs stands. *)
Theorem parse_header_fields (h : string) :
  (no_delim h = true -> pairs h = [key_value h])
  /\ (forall a d b, h = a ++ String d b -> no_delim a = true ->
                   Py.is_delim d = true -> pairs h = key_value a :: pairs b)
  /\ fst (_parse_fedapay_signature_header h) = last_value "t" (pairs h)
  /\ (forall v, last_value "v1" (pairs h) = Some v -> v <> "" ->
                snd (_parse_fedapay_signature_header h) = Some v)
  /\ (forall pre v post,
        pairs h = (pre ++ ("v0", v) :: post)%list ->
        Forall no_candidate pre -> v <> "" ->
        Forall (fun kv => fst kv <> "v1") post ->
        snd (_parse_fedapay_signature_header h) = Some v)
  /\ (Py.truthy_opt (snd (structured h)) = false ->
      match Py.re_search_hex64 h with
      | Some m => snd (_parse_fedapay_signature_header h) = Some m
                  /\ leftmost_hex64 h m
      | None => snd (_parse_fedapay_signature_header h) = snd (structured h)
                /\ ~ has_hex64 h
      end).
Proof.
  assert (Hkeep : forall v, snd (structured h) = Some v -> v <> "" ->
                            snd (_parse_fedapay_signature_header h) = Some v).
  { intros v Hs Hv. rewrite parse_structured.
    destruct (structured h) as [t s]. simpl in Hs. subst s.
    simpl. now rewrite (nonempty_true v Hv). }
  split; [|split; [|split; [|split; [|split]]]].
  - intros Hn. unfold pairs. now rewrite split_no_delim.
  - intros a d b -> Ha Hd. unfold pairs. now rewrite split_at_delim.
  - rewrite parse_structured.
    pose proof (fold_timestamp (pairs h) None None) as Ht.
    fold (structured h) in Ht. destruct (structured h) as [t s].
    simpl in Ht. subst t.
    destruct (negb (Py.truthy_opt s)); [|now destruct (last_value "t" (pairs h))].
    destruct (Py.re_search_hex64 h); now destruct (last_value "t" (pairs h)).
  - intros v Hl Hv. apply Hkeep; [|assumption].
    unfold structured. now apply fold_last_v1.
  - intros pre v post Hp Hpre Hv Hpost. apply Hkeep; [|assumption].
    unfold structured. rewrite Hp.
    apply fold_first_candidate; (assumption || discriminate).
  - intros Hs. rewrite parse_structured.
    destruct (structured h) as [t s]. simpl in Hs. rewrite Hs. simpl.
    destruct (Py.re_search_hex64 h) as [m|] eqn:E.
    + split; [reflexivity | now apply re_search_leftmost].
    + split; [reflexivity | now apply re_search_none].
Qed.

(** C5 as it is worded fails: in [x=y,v0=abc] no pair has the key [v1], a
    pair has the key [v0], and the signature is the value of the pair
    before it. *)
Lemma v0_fallback_counterexample :
  pairs "x=y,v0=abc" = [("x", "y"); ("v0", "abc")]
  /\ _parse_fedapay_signature_header "x=y,v0=abc" = (None, Some "y")
  /\ ~ v0_taken_whenever_v1_absent.
Proof.
  split; [reflexivity | split; [reflexivity|]].
  intros H. specialize (H "x=y,v0=abc" "abc").
  assert (E : snd (_parse_fedapay_signature_header "x=y,v0=abc") = Some "y")
    by reflexivity.
  rewrite E in H.
  assert (Some "y" = Some "abc"); [|discriminate].
  apply H.
  - repeat constructor; simpl; discriminate.
  - simpl. auto.
Qed.

(** The four ways to a signature, on four headers. *)
Lemma parse_header_fields_witness :
  _parse_fedapay_signature_header "t=1700000000,v1=abc"
  = (Some "1700000000", Some "abc")
  /\ snd (_parse_fedapay_signature_header "v0=old;v1=abc;t=1") = Some "abc"
  /\ snd (_parse_fedapay_signature_header "t=1;v0=abc") = Some "abc"
  /\ snd (_parse_fedapay_signature_header
            ("t=1,sig:"
             ++ "9f86d081884c7d659a2feaa0c55ad015a3bf4f1b2b0b822cd15d6c15b0f00a08"))
     = Some "9f86d081884c7d659a2feaa0c55ad015a3bf4f1b2b0b822cd15d6c15b0f00a08".
Proof.
  destruct (parse_header_fields "t=1700000000,v1=abc") as [_ [_ [Ht [Hv _]]]].
  destruct (parse_header_fields "v0=old;v1=abc;t=1") as [_ [_ [_ [Hv' _]]]].
  destruct (parse_header_fields "t=1;v0=abc") as [_ [_ [_ [_ [Hv0 _]]]]].
  destruct (parse_header_fields
              ("t=1,sig:"
               ++ "9f86d081884c7d659a2feaa0c55ad015a3bf4f1b2b0b822cd15d6c15b0f00a08"))
    as [_ [_ [_ [_ [_ Hscan]]]]].
  split; [|split; [|split]].
  - rewrite (surjective_pairing (_parse_fedapay_signature_header _)).
    rewrite Ht, (Hv "abc" eq_refl ltac:(discriminate)). reflexivity.
  - exact (Hv' "abc" eq_refl ltac:(discriminate)).
  - apply (Hv0 [("t", "1")] "abc" []); [reflexivity | | discriminate | constructor].
    constructor; [now left | constructor].
  - specialize (Hscan eq_refl).
    assert (E : Py.re_search_hex64
                  ("t=1,sig:"
                   ++ "9f86d081884c7d659a2feaa0c55ad015a3bf4f1b2b0b822cd15d6c15b0f00a08")
                = Some "9f86d081884c7d659a2feaa0c55ad015a3bf4f1b2b0b822cd15d6c15b0f00a08")
      by reflexivity.
    rewrite E in Hscan. exact (proj1 Hscan).
Defined.

(** C10.  A part of the header with a key other than [t] and a value, met
    while the loop holds no signature (the test [not signature_v1] of the
    source; so it is when every part before it has the key [t], no key or
    no value), gives the signature, whatever its key, provided no part of
    key [v1] follows; the scan for 64 hexadecimal characters is not
    consulted, also when the header holds such a run. *)
Theorem first_pair_is_the_signature
  (h : string) (pre post : list string) (p k v : string) :
  Py.re_split_delims h = (pre ++ p :: post)%list ->
  Py.truthy_opt (snd (fold_left header_step pre (None, None))) = false ->
  key_value p = (k, v) ->
  k <> "t" -> k <> "" -> v <> "" ->
  Forall (fun kv => fst kv <> "v1") (map key_value post) ->
  snd (_parse_fedapay_signature_header h) = Some v.
Proof.
  intros Hsplit Hpre Hp Hk Hk' Hv Hpost.
  rewrite parse_structured.
  assert (Hs : snd (structured h) = Some v).
  { unfold structured, pairs. rewrite Hsplit, map_app. simpl map. rewrite Hp.
    rewrite fold_header_step in Hpre. now apply fold_candidate. }
  destruct (structured h) as [t s]. simpl in Hs. subst s.
  simpl. now rewrite (nonempty_true v Hv).
Qed.

(** In [scheme_header] the pair [scheme=hmac] comes first: its value is
    returned, not the run of 64 hexadecimal characters. *)
Lemma first_pair_is_the_signature_witness :
  has_hex64 scheme_header
  /\ snd (_parse_fedapay_signature_header scheme_header) = Some "hmac".
Proof.
  split.
  - exists "scheme=hmac,t=1700000000,",
      "9f86d081884c7d659a2feaa0c55ad015a3bf4f1b2b0b822cd15d6c15b0f00a08", "".
    repeat split.
  - apply (first_pair_is_the_signature scheme_header []
             ["t=1700000000";
              "9f86d081884c7d659a2feaa0c55ad015a3bf4f1b2b0b822cd15d6c15b0f00a08"]
             "scheme=hmac" "scheme" "hmac");
      try reflexivity; try discriminate.
    repeat constructor; simpl; discriminate.
Defined.

(** ** What the webhook does with an event *)

Section WebhookProcess.
Context {X : Externals}.

Ltac run := unfold bind, lift, ret, raise, try_except; cbn beta iota.

(** The closed form of the body of the [try]. *)
Lemma webhook_process_run (payload : string) (w : world) :
  webhook_process payload w
  = match json_loads payload with
    | Exc e => (Exc e, w)
    | Ret ev =>
        match fedapay_save_webhook_data ev with
        | Exc e => (Exc e, w)
        | Ret _ =>
            match event_fields ev with
            | Exc e => (Exc e, w)
            | Ret (event_name, status, txid) =>
                if approved event_name status then
                  if negb (truthy txid) then
                    (Ret (JsonResponse 200 "ignored"),
                     snd (log "WARNING"
                            "WEBHOOK WARNING : Transaction id introuvable dans l'evenement."
                            w))
                  else
                    match filter (has_tid (py_str txid)) (payments w) with
                    | [] => (Exc Http404, w)
                    | [p] =>
                        let p' := with_p_status "completed" p in
                        let w1 := snd (payment_save p' w) in
                        match enrollment_of p (enrollments w) with
                        | Some e =>
                            (Ret (JsonResponse 200 "received"),
                             snd (log "INFO" "WEBHOOK SUCCESS : Cours débloqué"
                                    (snd (enrollment_save
                                            (with_e_status "active" e) w1))))
                        | None => (Exc DoesNotExist, w1)
                        end
                    | _ => (Exc MultipleObjectsReturned, w)
                    end
                else (Ret (JsonResponse 200 "received"), w)
            end
        end
    end.
Proof.
  unfold webhook_process. run.
  destruct (json_loads payload) as [ev|e]; [|reflexivity].
  destruct (fedapay_save_webhook_data ev) as [u|e]; [|reflexivity].
  destruct (event_fields ev) as [[[event_name status] txid]|e];
    [|reflexivity].
  destruct (approved event_name status); [|reflexivity].
  destruct (truthy txid); [|reflexivity]. cbn [negb].
  unfold get_payment_or_404.
  destruct (filter (has_tid (py_str txid)) (payments w)) as [|p [|q l]];
    try reflexivity.
  unfold payment_enrollment, enrollment_of. cbn.
  destruct (find _ (enrollments w)); reflexivity.
Qed.

End WebhookProcess.

(** ** Rows after a save *)

Section TableFacts.

Lemma filter_single {A : Type} (f : A -> bool) (l : list A) (x : A) :
  filter f l = [x] -> In x l /\ f x = true.
Proof.
  intros H. apply filter_In. rewrite H. now left.
Qed.

Lemma mark_completed_absent (p : Payment) (ps : list Payment) :
  ~ In (p_id p) (map p_id ps) -> mark_completed p ps = ps.
Proof.
  unfold mark_completed. induction ps as [|q ps IH]; simpl; [reflexivity|].
  intros H. rewrite IH by tauto.
  destruct (N.eqb_spec (p_id q) (p_id p)) as [E|_]; [|reflexivity].
  exfalso. apply H. now left.
Qed.

(** With unique primary keys, the row found by its transaction identifier
    is found again, completed, after it has been saved. *)
Lemma mark_completed_filter (tid : string) (p : Payment) (ps : list Payment) :
  NoDup (map p_id ps) ->
  filter (has_tid tid) ps = [p] ->
  filter (has_tid tid) (mark_completed p ps) = [with_p_status "completed" p].
Proof.
  induction ps as [|q ps IH]; simpl; [discriminate|].
  intros Hnd Hf. inversion Hnd as [|? ? Hq Hnd']; subst.
  destruct (has_tid tid q) eqn:Hq'.
  - injection Hf as -> Hf.
    rewrite N.eqb_refl. simpl.
    change (has_tid tid (with_p_status "completed" p)) with (has_tid tid p).
    rewrite Hq'. fold (mark_completed p ps).
    now rewrite (mark_completed_absent p ps Hq), Hf.
  - destruct (filter_single _ _ _ Hf) as [Hin _].
    destruct (N.eqb_spec (p_id q) (p_id p)) as [E|_].
    + exfalso. apply Hq. rewrite E. now apply in_map.
    + simpl. rewrite Hq'. now apply IH.
Qed.

Lemma mark_completed_idem (p : Payment) (ps : list Payment) :
  mark_completed (with_p_status "completed" p) (mark_completed p ps)
  = mark_completed p ps.
Proof.
  unfold mark_completed. rewrite map_map. apply map_ext. intros q. simpl.
  destruct (N.eqb_spec (p_id q) (p_id p)) as [E|E]; simpl.
  - now rewrite N.eqb_refl.
  - now destruct (N.eqb_spec (p_id q) (p_id p)).
Qed.

Lemma mark_active_idem (e : Enrollment) (es : list Enrollment) :
  mark_active (with_e_status "active" e) (mark_active e es) = mark_active e es.
Proof.
  unfold mark_active. rewrite map_map. apply map_ext. intros q. simpl.
  destruct (N.eqb_spec (e_id q) (e_id e)) as [E|E]; simpl.
  - now rewrite N.eqb_refl.
  - now destruct (N.eqb_spec (e_id q) (e_id e)).
Qed.

Lemma enrollment_of_id (p : Payment) (es : list Enrollment) (e : Enrollment) :
  enrollment_of p es = Some e -> In e es /\ e_id e = p_enrollment p.
Proof.
  intros H. apply find_some in H. destruct H as [Hin H].
  split; [assumption | now apply N.eqb_eq].
Qed.

(** The enrollment of a payment is found again, active, after it has been
    saved. *)
Lemma enrollment_of_marked (p : Payment) (es : list Enrollment) (e : Enrollment) :
  enrollment_of p es = Some e ->
  enrollment_of (with_p_status "completed" p) (mark_active e es)
  = Some (with_e_status "active" e).
Proof.
  unfold enrollment_of, mark_active. simpl p_enrollment.
  induction es as [|q es IH]; simpl; [discriminate|].
  destruct (N.eqb_spec (e_id q) (p_enrollment p)) as [E|E].
  - intros H. injection H as ->. rewrite N.eqb_refl. simpl.
    now rewrite E, N.eqb_refl.
  - intros H. pose proof (find_some _ _ H) as [_ He]. apply N.eqb_eq in He.
    destruct (N.eqb_spec (e_id q) (e_id e)) as [E'|_]; [congruence|].
    simpl. destruct (N.eqb_spec (e_id q) (p_enrollment p)); [contradiction|].
    now apply IH.
Qed.

Lemma in_mark_completed (p : Payment) (ps : list Payment) :
  In p ps -> In (with_p_status "completed" p) (mark_completed p ps).
Proof.
  intros H. unfold mark_completed. apply in_map_iff.
  exists p. now rewrite N.eqb_refl.
Qed.

Lemma in_mark_active (e : Enrollment) (es : list Enrollment) :
  In e es -> In (with_e_status "active" e) (mark_active e es).
Proof.
  intros H. unfold mark_active. apply in_map_iff.
  exists e. now rewrite N.eqb_refl.
Qed.

End TableFacts.

(** ** Events that pass the signature check *)

Section WebhookEvents.
Context {X : Externals}.

(** A verified POST is answered from the body of the [try]: its response,
    or [ignored] when it raises. *)
Lemma webhook_verified_run (request : request) (w : world) :
  method request = "POST" ->
  verify_signature_fedapay_v1 (body request) (x_fedapay_signature request)
  = Ret true ->
  fedapay_webhook request w
  = match webhook_process (body request) w with
    | (Ret r, w') => (Ret r, w')
    | (Exc e, w') =>
        (Ret (JsonResponse 200 "ignored"), snd (log "ERROR" "WEBHOOK ERROR" w'))
    end.
Proof.
  intros Hm Hv. rewrite (webhook_accepted request w Hm Hv).
  unfold try_except. destruct (webhook_process (body request) w) as [[r|e] w'];
    reflexivity.
Qed.

(** Replaying the body of the [try] on the world it has left gives the same
    outcome and the same tables. *)
Lemma webhook_process_replay (payload : string) (w : world) :
  NoDup (map p_id (payments w)) ->
  let w1 := snd (webhook_process payload w) in
  fst (webhook_process payload w1) = fst (webhook_process payload w)
  /\ payments (snd (webhook_process payload w1)) = payments w1
  /\ enrollments (snd (webhook_process payload w1)) = enrollments w1.
Proof.
  intros Hnd w1. subst w1. rewrite !webhook_process_run.
  destruct (json_loads payload) as [ev|e]; [|auto].
  destruct (fedapay_save_webhook_data ev) as [u|e]; [|auto].
  destruct (event_fields ev) as [[[event_name status] txid]|e]; [|auto].
  destruct (approved event_name status); [|auto].
  destruct (truthy txid); cbn [negb]; [|auto].
  destruct (filter (has_tid (py_str txid)) (payments w)) as [|p [|q l]] eqn:Hf.
  - cbn [snd]. rewrite Hf. auto.
  - cbn zeta.
    destruct (enrollment_of p (enrollments w)) as [e|] eqn:He; cbn [snd fst].
    + change (payments (snd (log _ _ (snd (enrollment_save _
                (snd (payment_save (with_p_status "completed" p) w)))))))
        with (mark_completed p (payments w)).
      change (enrollments (snd (log _ _ (snd (enrollment_save
                (with_e_status "active" e)
                (snd (payment_save (with_p_status "completed" p) w)))))))
        with (mark_active e (enrollments w)).
      rewrite (mark_completed_filter _ _ _ Hnd Hf).
      cbn zeta.
      rewrite (enrollment_of_marked _ _ _ He). cbn [fst snd].
      repeat split.
      * change (mark_completed (with_p_status "completed" p)
                  (mark_completed p (payments w)) = mark_completed p (payments w)).
        apply mark_completed_idem.
      * change (mark_active (with_e_status "active" e)
                  (mark_active e (enrollments w)) = mark_active e (enrollments w)).
        apply mark_active_idem.
    + change (payments (snd (payment_save (with_p_status "completed" p) w)))
        with (mark_completed p (payments w)).
      change (enrollments (snd (payment_save (with_p_status "completed" p) w)))
        with (enrollments w).
      rewrite (mark_completed_filter _ _ _ Hnd Hf).
      cbn zeta.
      assert (He' : enrollment_of (with_p_status "completed" p) (enrollments w)
                    = None) by exact He.
      rewrite He'. cbn [fst snd].
      repeat split.
      change (mark_completed (with_p_status "completed" p)
                (mark_completed p (payments w)) = mark_completed p (payments w)).
      apply mark_completed_idem.
  - cbn [snd]. rewrite Hf. auto.
Qed.

(** The body of the [try] reads nothing of the world but the two tables. *)
Lemma webhook_process_tables (payload : string) (w w0 : world) :
  payments w = payments w0 -> enrollments w = enrollments w0 ->
  fst (webhook_process payload w) = fst (webhook_process payload w0)
  /\ payments (snd (webhook_process payload w))
     = payments (snd (webhook_process payload w0))
  /\ enrollments (snd (webhook_process payload w))
     = enrollments (snd (webhook_process payload w0)).
Proof.
  intros Hp He. rewrite !webhook_process_run.
  destruct (json_loads payload); [|auto].
  destruct (fedapay_save_webhook_data _); [|auto].
  destruct (event_fields _) as [[[event_name status] txid]|]; [|auto].
  destruct (approved _ _); [|auto].
  destruct (truthy _); cbn [negb]; [|auto].
  rewrite Hp, He.
  destruct (filter _ (payments w0)) as [|p [|q l]]; [auto| |auto].
  cbn zeta. destruct (enrollment_of p (enrollments w0)); cbn [fst snd];
    unfold log, enrollment_save, payment_save, add_write, set_enrollments,
      set_payments; cbn [fst snd payments enrollments]; rewrite ?Hp, ?He; auto.
Qed.

End WebhookEvents.

(** The status of an event is its own, and the one of its entity only when
    its own is missing or false; likewise for the transaction identifier. *)
Lemma event_fields_dict (X : Externals) (l entity : list (string * pyval)) :
  assoc "entity" l = Some (PDict entity) \/ assoc "entity" l = None ->
  event_fields (PDict l)
  = Ret (first_truthy [or_none (assoc "name" l); PStr ""],
         first_truthy [or_none (assoc "status" l);
                       or_none (assoc "status"
                                  (match assoc "entity" l with
                                   | Some (PDict m) => m
                                   | _ => []
                                   end))],
         first_truthy [or_none (assoc "id" l);
                       or_none (assoc "id"
                                  (match assoc "entity" l with
                                   | Some (PDict m) => m
                                   | _ => []
                                   end))]).
Proof.
  intros [He|He]; unfold event_fields; cbn [dict_get obind]; rewrite He;
    cbn [or_none truthy first_truthy]; unfold or_else;
    destruct entity;
    destruct (truthy (or_none (assoc "name" l)));
    destruct (truthy (or_none (assoc "status" l)));
    destruct (truthy (or_none (assoc "id" l))); reflexivity.
Qed.

(** The same when the entity is null or otherwise false: the view then
    reads an empty mapping. *)
Lemma event_fields_entity (l : list (string * pyval)) :
  isinstance_dict (or_none (assoc "entity" l)) = true
  \/ truthy (or_none (assoc "entity" l)) = false ->
  event_fields (PDict l)
  = Ret (first_truthy [or_none (assoc "name" l); PStr ""],
         first_truthy [or_none (assoc "status" l);
                       or_none (assoc "status"
                                  (mapping_entries (or_none (assoc "entity" l))))],
         first_truthy [or_none (assoc "id" l);
                       or_none (assoc "id"
                                  (mapping_entries (or_none (assoc "entity" l))))]).
Proof.
  intros He. unfold event_fields. cbn [dict_get obind].
  cbn [first_truthy]. unfold or_else.
  destruct (truthy (or_none (assoc "entity" l))) eqn:Ht.
  - destruct He as [He|He]; [|discriminate].
    destruct (or_none (assoc "entity" l)) as [| | | | | |m|]; try discriminate.
    cbn [dict_get obind mapping_entries].
    destruct (truthy (or_none (assoc "name" l)));
      destruct (truthy (or_none (assoc "status" l)));
      destruct (truthy (or_none (assoc "id" l))); reflexivity.
  - assert (Hn : mapping_entries (or_none (assoc "entity" l)) = []).
    { destruct (or_none (assoc "entity" l)) as [| | | | | |m|]; try reflexivity.
      destruct m; [reflexivity | discriminate]. }
    rewrite Hn. cbn [dict_get obind assoc or_none].
    destruct (truthy (or_none (assoc "name" l)));
      destruct (truthy (or_none (assoc "status" l)));
      destruct (truthy (or_none (assoc "id" l))); reflexivity.
Qed.

(** C2, as the code has it.  For an event whose entity is a mapping, or
    is missing or false, the status the webhook tests is the status of the
    event or, only when that one is missing or false (null, empty, zero),
    the status of its entity; the transaction identifier is read the same
    way.
    A POST that passes the signature check and whose event is read and
    stored by the connector is recognised as approved when that status is
    [approved] or the name of the event is [transaction.approved].  Then,
    with a transaction identifier that one payment row carries, the row is
    saved as completed, the enrollment it points to is saved as active, and
    the answer is 200 [received]; without a transaction identifier no row
    changes or is written and the answer is 200 [ignored].  An event that
    is not recognised, as one with another status of its own whatever the
    status of its entity, is answered 200 [received] and no row changes or
    is written. *)
Theorem webhook_approved_event (X : Externals) :
  (forall l,
     isinstance_dict (or_none (assoc "entity" l)) = true
     \/ truthy (or_none (assoc "entity" l)) = false ->
     event_fields (PDict l)
     = Ret (first_truthy [or_none (assoc "name" l); PStr ""],
            first_truthy [or_none (assoc "status" l);
                          or_none (assoc "status"
                                     (mapping_entries (or_none (assoc "entity" l))))],
            first_truthy [or_none (assoc "id" l);
                          or_none (assoc "id"
                                     (mapping_entries (or_none (assoc "entity" l))))]))
  /\ (forall (request : request) (w : world)
             (ev event_name status trans_id : pyval),
        method request = "POST" ->
        verify_signature_fedapay_v1 (body request) (x_fedapay_signature request)
        = Ret true ->
        json_loads (body request) = Ret ev ->
        fedapay_save_webhook_data ev = Ret tt ->
        event_fields ev = Ret (event_name, status, trans_id) ->
        let r := fst (serve (fedapay_webhook request) w) in
        let w' := snd (serve (fedapay_webhook request) w) in
        (approved event_name status = true ->
         truthy trans_id = true ->
         forall p e,
           filter (has_tid (py_str trans_id)) (payments w) = [p] ->
           enrollment_of p (enrollments w) = Some e ->
           r = JsonResponse 200 "received"
           /\ payments w' = mark_completed p (payments w)
           /\ enrollments w' = mark_active e (enrollments w)
           /\ In (with_p_status "completed" p) (payments w')
           /\ In (with_e_status "active" e) (enrollments w'))
        /\ (approved event_name status = true ->
            truthy trans_id = false ->
            r = JsonResponse 200 "ignored"
            /\ payments w' = payments w /\ enrollments w' = enrollments w
            /\ writes w' = writes w)
        /\ (approved event_name status = false ->
            r = JsonResponse 200 "received"
            /\ payments w' = payments w /\ enrollments w' = enrollments w
            /\ writes w' = writes w)).
Proof.
  split; [exact event_fields_entity|].
  intros request w ev event_name status trans_id Hm Hv Hj Hc Hf r w'.
  subst r w'. unfold serve.
  rewrite (webhook_verified_run request w Hm Hv), webhook_process_run.
  rewrite Hj, Hc, Hf. split; [|split].
  - intros Ha Ht p e Hp He. rewrite Ha, Ht, Hp. cbn [negb]. cbn zeta.
    rewrite He. cbn [fst snd].
    destruct (filter_single _ _ _ Hp) as [Hin _].
    destruct (enrollment_of_id _ _ _ He) as [Hin' _].
    repeat split.
    + now apply in_mark_completed.
    + now apply in_mark_active.
  - intros Ha Ht. rewrite Ha, Ht. cbn [negb fst snd]. repeat split.
  - intros Ha. rewrite Ha. cbn [fst snd]. repeat split.
Qed.

(** The event of the spec, signed, completes the payment [tx_1] and
    activates its enrollment; signed without an identifier it is ignored;
    the declined event about an approved entity changes nothing. *)
Lemma webhook_approved_event_witness :
  let request := demo_post approved_body in
  let p := {| p_id := 1; p_enrollment := 7; p_amount := 500000;
              p_method := ""; p_transaction_id := "tx_1";
              p_status := "pending"; p_notes := "" |} in
  let e := {| e_id := 7; e_student := 3; e_course := 2;
              e_status := "pending" |} in
  fst (serve (@fedapay_webhook demo request) demo_world)
  = JsonResponse 200 "received"
  /\ payments (snd (serve (@fedapay_webhook demo request) demo_world))
     = [with_p_status "completed" p]
  /\ enrollments (snd (serve (@fedapay_webhook demo request) demo_world))
     = [with_e_status "active" e]
  /\ fst (serve (@fedapay_webhook demo (demo_post anonymous_body)) demo_world)
     = JsonResponse 200 "ignored"
  /\ payments (snd (serve (@fedapay_webhook demo (demo_post declined_body))
                      demo_world))
     = [p].
Proof.
  intros request p e.
  assert (Hv : forall payload,
             @verify_signature_fedapay_v1 demo payload
               (Some (signed_header demo_secret 1700000000 payload)) = Ret true
             -> @verify_signature_fedapay_v1 demo (body (demo_post payload))
                  (x_fedapay_signature (demo_post payload)) = Ret true)
    by (intros payload H; exact H).
  destruct (webhook_approved_event demo) as [_ H].
  pose proof (H request demo_world
    (PDict [("name", PStr "transaction.approved");
            ("entity", PDict [("id", PStr "tx_1"); ("status", PStr "approved")])])
    (PStr "transaction.approved") (PStr "approved") (PStr "tx_1")
    eq_refl (Hv approved_body ltac:(vm_compute; reflexivity))
    ltac:(vm_compute; reflexivity) eq_refl eq_refl) as [H1 _].
  pose proof (H (demo_post anonymous_body) demo_world
    (PDict [("name", PStr "transaction.approved");
            ("entity", PDict [("status", PStr "approved")])])
    (PStr "transaction.approved") (PStr "approved") PNone
    eq_refl (Hv anonymous_body ltac:(vm_compute; reflexivity))
    ltac:(vm_compute; reflexivity) eq_refl eq_refl) as [_ [H2 _]].
  pose proof (H (demo_post declined_body) demo_world
    (PDict [("name", PStr "transaction.declined");
            ("status", PStr "declined");
            ("entity", PDict [("id", PStr "tx_1"); ("status", PStr "approved")])])
    (PStr "transaction.declined") (PStr "declined") (PStr "tx_1")
    eq_refl (Hv declined_body ltac:(vm_compute; reflexivity))
    ltac:(vm_compute; reflexivity) eq_refl eq_refl) as [_ [_ H3]].
  destruct (H1 eq_refl eq_refl p e eq_refl eq_refl) as [Hr [Hp [He _]]].
  destruct (H2 eq_refl eq_refl) as [Hr' _].
  destruct (H3 eq_refl) as [_ [Hp3 _]].
  split; [exact Hr | split; [exact Hp | split; [exact He | split;
    [exact Hr' | exact Hp3]]]].
Defined.

(** C2 as it is worded fails: the declined event about an approved entity
    is successful in the words of the spec, its transaction identifier is
    the one of the payment of the demo world, and the webhook, which looks
    at the status of the entity only when the event has none, answers 200
    [received] and leaves the payment pending. *)
Lemma nested_status_counterexample :
  @json_loads demo declined_body
  = Ret (PDict [("name", PStr "transaction.declined");
                ("status", PStr "declined");
                ("entity", PDict [("id", PStr "tx_1");
                                  ("status", PStr "approved")])])
  /\ successful_as_specified
       (PDict [("name", PStr "transaction.declined");
               ("status", PStr "declined");
               ("entity", PDict [("id", PStr "tx_1");
                                 ("status", PStr "approved")])]) = true
  /\ serve (@fedapay_webhook demo (demo_post declined_body)) demo_world
     = (JsonResponse 200 "received", demo_world)
  /\ ~ nested_status_always_counts.
Proof.
  split; [vm_compute; reflexivity|].
  split; [reflexivity|].
  split; [vm_compute; reflexivity|].
  intros H.
  destruct (H demo (demo_post declined_body) demo_world
              (PDict [("name", PStr "transaction.declined");
                      ("status", PStr "declined");
                      ("entity", PDict [("id", PStr "tx_1");
                                        ("status", PStr "approved")])])
              (PStr "transaction.declined") (PStr "declined") (PStr "tx_1")
              {| p_id := 1; p_enrollment := 7; p_amount := 500000;
                 p_method := ""; p_transaction_id := "tx_1";
                 p_status := "pending"; p_notes := "" |}
              {| e_id := 7; e_student := 3; e_course := 2;
                 e_status := "pending" |}
              eq_refl ltac:(vm_compute; reflexivity)
              ltac:(vm_compute; reflexivity) eq_refl eq_refl eq_refl eq_refl
              eq_refl eq_refl) as [_ [Hin _]].
  vm_compute in Hin. destruct Hin as [Hin|[]]. discriminate Hin.
Qed.

(** C4.  With unique primary keys, delivering the same request a second
    time, on the world the first delivery has left, gives the same answer
    and leaves every payment row and every enrollment row as the first
    delivery left it: a payment completed and an enrollment activated by the
    first delivery stay so, and the answer is again 200 [received]. *)
Theorem webhook_replay_changes_nothing
  (X : Externals) (request : request) (w : world) :
  NoDup (map p_id (payments w)) ->
  let w1 := snd (serve (fedapay_webhook request) w) in
  fst (serve (fedapay_webhook request) w1)
  = fst (serve (fedapay_webhook request) w)
  /\ payments (snd (serve (fedapay_webhook request) w1)) = payments w1
  /\ enrollments (snd (serve (fedapay_webhook request) w1)) = enrollments w1.
Proof.
  intros Hnd w1. subst w1.
  destruct (String.eqb_spec (method request) "POST") as [Hm|Hm].
  2:{ unfold serve, fedapay_webhook.
      destruct (method request =? "POST") eqn:E;
        [apply String.eqb_eq in E; contradiction|].
      repeat split. }
  destruct (verify_signature_fedapay_v1 (body request)
              (x_fedapay_signature request)) as [[|]|e] eqn:Hv.
  - unfold serve. rewrite !(webhook_verified_run request _ Hm Hv).
    pose proof (webhook_process_replay (body request) w Hnd) as H.
    cbn zeta in H. destruct H as [H1 [H2 H3]].
    destruct (webhook_process (body request) w) as [o1 w1] eqn:E1.
    cbn [fst snd] in H1, H2, H3.
    assert (Hw1 : forall o w0,
               payments (snd (match o with
                              | Ret r => (r, w0)
                              | Exc e' => (JsonResponse 200 "ignored",
                                           snd (log "ERROR" "WEBHOOK ERROR" w0))
                              end)) = payments w0
               /\ enrollments (snd (match o with
                                    | Ret r => (r, w0)
                                    | Exc e' => (JsonResponse 200 "ignored",
                                                 snd (log "ERROR" "WEBHOOK ERROR" w0))
                                    end)) = enrollments w0)
      by (intros [r|e'] w0; split; reflexivity).
    destruct o1 as [r1|e1]; cbn [fst snd].
    + destruct (webhook_process (body request) w1) as [o2 w2] eqn:E2.
      cbn [fst snd] in H1, H2, H3. subst o2. cbn [fst snd]. auto.
    + destruct (webhook_process_tables (body request)
                  (snd (log "ERROR" "WEBHOOK ERROR" w1)) w1 eq_refl eq_refl)
        as [T1 [T2 T3]].
      destruct (webhook_process (body request)
                  (snd (log "ERROR" "WEBHOOK ERROR" w1))) as [o2 w2].
      cbn [fst snd] in T1, T2, T3. rewrite H1 in T1. subst o2.
      cbn [fst snd]. repeat split.
      * change (payments w2 = payments w1). congruence.
      * change (enrollments w2 = enrollments w1). congruence.
  - destruct (webhook_forbidden request w Hm Hv) as [Hr [Hp [He _]]].
    destruct (webhook_forbidden request
                (snd (serve (fedapay_webhook request) w)) Hm Hv)
      as [Hr' [Hp' [He' _]]].
    rewrite Hr, Hr'. auto.
  - unfold serve. rewrite !(webhook_verification_raises request _ e Hm Hv).
    destruct e; repeat split;
      now rewrite (webhook_verification_raises request _ _ Hm Hv).
Qed.

Lemma webhook_replay_changes_nothing_witness :
  let request := demo_post approved_body in
  let w1 := snd (serve (@fedapay_webhook demo request) demo_world) in
  NoDup (map p_id (payments demo_world))
  /\ map p_status (payments w1) = ["completed"]
  /\ map e_status (enrollments w1) = ["active"]
  /\ fst (serve (@fedapay_webhook demo request) w1)
     = fst (serve (@fedapay_webhook demo request) demo_world)
  /\ payments (snd (serve (@fedapay_webhook demo request) w1)) = payments w1
  /\ enrollments (snd (serve (@fedapay_webhook demo request) w1))
     = enrollments w1.
Proof.
  intros request w1.
  assert (Hnd : NoDup (map p_id (payments demo_world)))
    by (repeat constructor; simpl; tauto).
  split; [exact Hnd|].
  split; [vm_compute; reflexivity|].
  split; [vm_compute; reflexivity|].
  exact (webhook_replay_changes_nothing demo request demo_world Hnd).
Defined.

(** ** The callback *)

Section Callback.
Context {X : Externals}.

Lemma least_pk_in (ps : list Payment) (p : Payment) :
  least_pk ps = Some p -> In p ps.
Proof.
  revert p. induction ps as [|q ps IH]; simpl; [discriminate|].
  intros p. destruct (least_pk ps) as [m|].
  - destruct (N.ltb (p_id m) (p_id q)); intros H; injection H as <-; auto.
  - intros H. injection H as <-. auto.
Qed.

(** The closed form of the body of the [try] of the callback. *)
Lemma callback_check_run (tx_id : pyval) (w : world) :
  callback_check tx_id w
  = if truthy tx_id then
      match get_transaction_by_fedapay_id (py_str tx_id) with
      | Exc e => (Exc e, w)
      | Ret tx =>
          match _extract_fedapay_status tx with
          | Exc e => (Exc e, w)
          | Ret status =>
              if existsb (eq_str status) SUCCESS_STATUSES then
                match least_pk (filter (has_tid (py_str tx_id)) (payments w)) with
                | Some p =>
                    let w1 := snd (payment_save (with_p_status "completed" p) w) in
                    match enrollment_of p (enrollments w) with
                    | Some e =>
                        (Ret tt,
                         snd (enrollment_save (with_e_status "active" e) w1))
                    | None => (Exc DoesNotExist, w1)
                    end
                | None => (Ret tt, w)
                end
              else (Ret tt, w)
          end
      end
    else (Ret tt, w).
Proof.
  unfold callback_check, bind, lift, ret, first_payment. cbn beta iota.
  destruct (truthy tx_id); [|reflexivity].
  destruct (get_transaction_by_fedapay_id _); [|reflexivity].
  destruct (_extract_fedapay_status _); [|reflexivity].
  destruct (existsb _ _); [|reflexivity].
  destruct (least_pk _); [|reflexivity].
  unfold payment_enrollment, enrollment_of. cbn.
  destruct (find _ (enrollments w)); reflexivity.
Qed.

(** The closed form of the callback: the check, a warning in the log when
    it raised, then always the same message and the same redirection. *)
Lemma fedapay_callback_run (request : request) (w : world) :
  fedapay_callback request w
  = (Ret (Redirect "student_view_courses"),
     snd (message "success" CONFIRMED
            (match callback_check (callback_tx_id request w) w with
             | (Ret _, w1) => w1
             | (Exc _, w1) => snd (log "WARNING" "CALLBACK CHECK" w1)
             end))).
Proof.
  unfold fedapay_callback, callback_tx_id, bind, ret, try_except, session_get.
  destruct (truthy (query_tx_id request)); cbn beta iota;
    destruct (callback_check _ w) as [[u|e] w1]; reflexivity.
Qed.

End Callback.

(** C7.  Whatever the request and the state, the callback answers with a
    redirection to the courses of the student and adds the one message
    that the payment is confirmed.  When the gateway reports, for the
    transaction identifier of the request, a status among [approved],
    [completed] and [success], the first payment row carrying that
    identifier is saved as completed and its enrollment as active.  When
    the check raises, whatever the exception, a warning goes to the log and
    the answer is the same. *)
Theorem callback_reconciles_and_confirms
  (X : Externals) (request : request) (w : world) :
  let tx_id := callback_tx_id request w in
  let w' := snd (serve (fedapay_callback request) w) in
  fst (serve (fedapay_callback request) w) = Redirect "student_view_courses"
  /\ flashes w' = (flashes w ++ [("success", CONFIRMED)])%list
  /\ (forall tx status p e,
        truthy tx_id = true ->
        get_transaction_by_fedapay_id (py_str tx_id) = Ret tx ->
        _extract_fedapay_status tx = Ret status ->
        existsb (eq_str status) SUCCESS_STATUSES = true ->
        least_pk (filter (has_tid (py_str tx_id)) (payments w)) = Some p ->
        enrollment_of p (enrollments w) = Some e ->
        payments w' = mark_completed p (payments w)
        /\ enrollments w' = mark_active e (enrollments w)
        /\ In (with_p_status "completed" p) (payments w')
        /\ In (with_e_status "active" e) (enrollments w'))
  /\ (forall err,
        fst (callback_check tx_id w) = Exc err ->
        journal w'
        = (journal (snd (callback_check tx_id w))
           ++ [("WARNING", "CALLBACK CHECK")])%list).
Proof.
  intros tx_id w'. subst tx_id w'. unfold serve.
  rewrite fedapay_callback_run. cbn [fst snd].
  split; [reflexivity|]. split.
  { destruct (callback_check (callback_tx_id request w) w) as [[u|e] w1] eqn:E;
      rewrite callback_check_run in E;
      destruct (truthy _); try (injection E as _ <-; reflexivity);
      destruct (get_transaction_by_fedapay_id _);
        try (injection E as _ <-; reflexivity);
      destruct (_extract_fedapay_status _);
        try (injection E as _ <-; reflexivity);
      destruct (existsb _ _); try (injection E as _ <-; reflexivity);
      destruct (least_pk _); try (injection E as _ <-; reflexivity);
      cbn zeta in E; destruct (enrollment_of _ _);
      injection E as _ <-; reflexivity. }
  split.
  - intros tx status p e Ht Hg Hs Hok Hp He.
    rewrite callback_check_run, Ht, Hg, Hs, Hok, Hp. cbn zeta. rewrite He.
    apply least_pk_in, filter_In in Hp. destruct Hp as [Hin _].
    destruct (enrollment_of_id _ _ _ He) as [Hin' _].
    repeat split.
    + now apply in_mark_completed.
    + now apply in_mark_active.
  - intros err Herr.
    destruct (callback_check (callback_tx_id request w) w) as [[u|e] w1];
      [discriminate | reflexivity].
Qed.

Lemma callback_reconciles_and_confirms_witness :
  let request := back_from_gateway "tx_1" in
  let w' := snd (serve (@fedapay_callback demo request) demo_world) in
  fst (serve (@fedapay_callback demo request) demo_world)
  = Redirect "student_view_courses"
  /\ flashes w' = [("success", CONFIRMED)]
  /\ map p_status (payments w') = ["completed"]
  /\ map e_status (enrollments w') = ["active"].
Proof.
  intros request w'.
  destruct (callback_reconciles_and_confirms demo request demo_world)
    as [Hr [Hf [Hok _]]].
  destruct (Hok (PDict [("status", PStr "approved")]) (PStr "approved")
              {| p_id := 1; p_enrollment := 7; p_amount := 500000;
                 p_method := ""; p_transaction_id := "tx_1";
                 p_status := "pending"; p_notes := "" |}
              {| e_id := 7; e_student := 3; e_course := 2;
                 e_status := "pending" |}
              eq_refl eq_refl eq_refl eq_refl eq_refl eq_refl)
    as [Hp [He _]].
  split; [exact Hr | split; [exact Hf | split]].
  - subst w'. rewrite Hp. reflexivity.
  - subst w'. rewrite He. reflexivity.
Defined.

(** C3, as the code has it.  A correctly signed, approved event whose
    transaction identifier matches no payment row: the [Http404] of the
    lookup is caught with every other exception of the processing, an error
    goes to the log, the answer is 200 [ignored], and no row is created,
    changed or written.  A callback whose transaction identifier matches no
    payment row creates, changes and writes no row either, and ends as every
    callback does. *)
Theorem unknown_transaction_changes_nothing (X : Externals) (w : world) :
  (forall (request : request) (ev event_name status trans_id : pyval),
     method request = "POST" ->
     verify_signature_fedapay_v1 (body request) (x_fedapay_signature request)
     = Ret true ->
     json_loads (body request) = Ret ev ->
     fedapay_save_webhook_data ev = Ret tt ->
     event_fields ev = Ret (event_name, status, trans_id) ->
     approved event_name status = true ->
     truthy trans_id = true ->
     filter (has_tid (py_str trans_id)) (payments w) = [] ->
     let w' := snd (serve (fedapay_webhook request) w) in
     fst (serve (fedapay_webhook request) w) = JsonResponse 200 "ignored"
     /\ payments w' = payments w /\ enrollments w' = enrollments w
     /\ writes w' = writes w
     /\ journal w' = (journal w ++ [("ERROR", "WEBHOOK ERROR")])%list)
  /\ (forall (request : request),
        filter (has_tid (py_str (callback_tx_id request w))) (payments w) = [] ->
        let w' := snd (serve (fedapay_callback request) w) in
        fst (serve (fedapay_callback request) w)
        = Redirect "student_view_courses"
        /\ payments w' = payments w /\ enrollments w' = enrollments w
        /\ writes w' = writes w
        /\ flashes w' = (flashes w ++ [("success", CONFIRMED)])%list).
Proof.
  split.
  - intros request ev event_name status trans_id Hm Hv Hj Hc Hf Ha Ht Hp w'.
    subst w'. unfold serve.
    rewrite (webhook_verified_run request w Hm Hv), webhook_process_run.
    rewrite Hj, Hc, Hf, Ha, Ht, Hp. cbn [negb fst snd]. repeat split.
  - intros request Hp w'. subst w'. unfold serve.
    rewrite fedapay_callback_run, callback_check_run. cbn [fst snd].
    rewrite Hp. cbn [least_pk].
    destruct (truthy _); [|repeat split].
    destruct (get_transaction_by_fedapay_id _); [|repeat split].
    destruct (_extract_fedapay_status _); [|repeat split].
    destruct (existsb _ _); repeat split.
Qed.

Lemma unknown_transaction_changes_nothing_witness :
  fst (serve (@fedapay_webhook demo (demo_post unknown_body)) demo_world)
  = JsonResponse 200 "ignored"
  /\ payments (snd (serve (@fedapay_webhook demo (demo_post unknown_body))
                     demo_world))
     = payments demo_world.
Proof.
  destruct (unknown_transaction_changes_nothing demo demo_world) as [H _].
  destruct (H (demo_post unknown_body)
    (PDict [("name", PStr "transaction.approved");
            ("entity", PDict [("id", PStr "tx_404");
                              ("status", PStr "approved")])])
    (PStr "transaction.approved") (PStr "approved") (PStr "tx_404")
    eq_refl ltac:(vm_compute; reflexivity) ltac:(vm_compute; reflexivity)
    eq_refl eq_refl eq_refl eq_refl eq_refl) as [Hr [Hp _]].
  split; [exact Hr | exact Hp].
Defined.

(** C3 as it is worded fails: the event of [unknown_body], signed with the
    secret, names a transaction no payment row carries, and the answer is
    not an error status but 200 [ignored]. *)
Lemma unknown_transaction_counterexample :
  @verify_signature_fedapay_v1 demo unknown_body
    (x_fedapay_signature (demo_post unknown_body)) = Ret true
  /\ filter (has_tid "tx_404") (payments demo_world) = []
  /\ fst (serve (@fedapay_webhook demo (demo_post unknown_body)) demo_world)
     = JsonResponse 200 "ignored"
  /\ ~ unknown_transaction_fails_loudly.
Proof.
  assert (Hv : @verify_signature_fedapay_v1 demo unknown_body
                 (x_fedapay_signature (demo_post unknown_body)) = Ret true)
    by (vm_compute; reflexivity).
  assert (Hr : fst (serve (@fedapay_webhook demo (demo_post unknown_body))
                      demo_world) = JsonResponse 200 "ignored")
    by (vm_compute; reflexivity).
  split; [exact Hv | split; [reflexivity | split; [exact Hr|]]].
  intros H.
  specialize (H demo (demo_post unknown_body) demo_world
    (PDict [("name", PStr "transaction.approved");
            ("entity", PDict [("id", PStr "tx_404");
                              ("status", PStr "approved")])])
    (PStr "transaction.approved") (PStr "approved") (PStr "tx_404")
    eq_refl Hv ltac:(vm_compute; reflexivity) eq_refl eq_refl eq_refl eq_refl
    eq_refl).
  rewrite Hr in H. simpl in H. lia.
Qed.

(** ** The order of the writes *)

Section WriteOrder.
Context {X : Externals}.

Lemma reconciliation_ordered (w w' : world) :
  reconciliation w w' -> activation_after_completion w w'.
Proof.
  intros [H | p H | p e H Hs Hp Hin].
  - exists []. rewrite app_nil_r. split; [assumption|]. split.
    + intros [|? ?] ? ? ?; discriminate.
    + intros e [].
  - exists [PaymentSaved p]. split; [assumption|]. split.
    + intros [|? [|? ?]] e post Heq; try discriminate.
    + intros e [Heq|[]]. discriminate.
  - exists [PaymentSaved p; EnrollmentSaved e]. split; [assumption|]. split.
    + intros [|x [|y [|z pre]]] e' post Heq He'; try discriminate.
      injection Heq as <- <- _. exists p. simpl. auto.
    + intros e' [Heq|[Heq|[]]] He'; [discriminate|].
      injection Heq as <-. exists p. auto.
Qed.

Lemma reconciliation_same (w w1 w2 : world) :
  writes w2 = writes w1 -> payments w2 = payments w1 ->
  reconciliation w w1 -> reconciliation w w2.
Proof.
  intros Hw Hp [H | p H | p e H Hs He Hin].
  - apply no_write. congruence.
  - apply payment_only with p. congruence.
  - apply payment_then_enrollment with p e; congruence.
Qed.

(** Saving a completed payment and then its enrollment, as the webhook and
    the callback do. *)
Lemma complete_then_activate (p : Payment) (e : Enrollment) (w : world) :
  In p (payments w) -> enrollment_of p (enrollments w) = Some e ->
  reconciliation w
    (snd (enrollment_save (with_e_status "active" e)
            (snd (payment_save (with_p_status "completed" p) w)))).
Proof.
  intros Hin He.
  apply payment_then_enrollment
    with (with_p_status "completed" p) (with_e_status "active" e).
  - cbn. now rewrite <- app_assoc.
  - reflexivity.
  - simpl. symmetry. now apply (enrollment_of_id p (enrollments w) e).
  - now apply in_mark_completed.
Qed.

Lemma webhook_process_reconciliation (payload : string) (w : world) :
  reconciliation w (snd (webhook_process payload w)).
Proof.
  rewrite webhook_process_run.
  destruct (json_loads payload); [|now apply no_write].
  destruct (fedapay_save_webhook_data _); [|now apply no_write].
  destruct (event_fields _) as [[[event_name status] txid]|];
    [|now apply no_write].
  destruct (approved _ _); [|now apply no_write].
  destruct (truthy _); cbn [negb]; [|now apply no_write].
  destruct (filter _ (payments w)) as [|p [|q l]] eqn:Hf;
    [now apply no_write | | now apply no_write].
  cbn zeta. destruct (filter_single _ _ _ Hf) as [Hin _].
  destruct (enrollment_of p (enrollments w)) as [e|] eqn:He; cbn [snd].
  - apply reconciliation_same
      with (snd (enrollment_save (with_e_status "active" e)
                   (snd (payment_save (with_p_status "completed" p) w))));
      [reflexivity | reflexivity | now apply complete_then_activate].
  - now apply payment_only with (with_p_status "completed" p).
Qed.

Lemma webhook_reconciliation (request : request) (w : world) :
  reconciliation w (snd (fedapay_webhook request w)).
Proof.
  destruct (String.eqb_spec (method request) "POST") as [Hm|Hm].
  2:{ unfold fedapay_webhook.
      destruct (method request =? "POST") eqn:E;
        [apply String.eqb_eq in E; contradiction | now apply no_write]. }
  destruct (verify_signature_fedapay_v1 (body request)
              (x_fedapay_signature request)) as [[|]|e] eqn:Hv.
  - rewrite (webhook_verified_run request w Hm Hv).
    pose proof (webhook_process_reconciliation (body request) w) as H.
    destruct (webhook_process (body request) w) as [[r|e] w1]; cbn [snd] in *.
    + assumption.
    + now apply reconciliation_same with w1.
  - apply no_write.
    pose proof (webhook_forbidden request w Hm Hv) as [_ H].
    unfold serve in H.
    destruct (fedapay_webhook request w) as [[r|e] w1]; cbn [snd] in *;
      [|destruct e]; apply H.
  - rewrite (webhook_verification_raises request w e Hm Hv). now apply no_write.
Qed.

Lemma callback_reconciliation (request : request) (w : world) :
  reconciliation w (snd (fedapay_callback request w)).
Proof.
  rewrite fedapay_callback_run, callback_check_run. cbn [snd].
  set (tx_id := callback_tx_id request w).
  destruct (truthy tx_id); [|now apply no_write].
  destruct (get_transaction_by_fedapay_id _); [|now apply no_write].
  destruct (_extract_fedapay_status _); [|now apply no_write].
  destruct (existsb _ _); [|now apply no_write].
  destruct (least_pk _) as [p|] eqn:Hp; [|now apply no_write].
  apply least_pk_in, filter_In in Hp. destruct Hp as [Hin _].
  cbn zeta. destruct (enrollment_of p (enrollments w)) as [e|] eqn:He.
  - apply reconciliation_same
      with (snd (enrollment_save (with_e_status "active" e)
                   (snd (payment_save (with_p_status "completed" p) w))));
      [reflexivity | reflexivity | now apply complete_then_activate].
  - now apply payment_only with (with_p_status "completed" p).
Qed.

Lemma manager_reconciliation (request : request) (payment_id : N) (w : world) :
  reconciliation w (snd (manager_update_payment request payment_id w)).
Proof.
  unfold manager_update_payment, bind, ret, get_payment_by_id_or_404.
  destruct (filter _ (payments w)) as [|p [|q l]] eqn:Hf;
    [now apply no_write | | now apply no_write].
  destruct (method request =? "POST"); [|now apply no_write].
  cbn beta iota. destruct (form_is_valid _ _ _); [|now apply no_write].
  set (p' := form_instance (POST request) p).
  destruct (filter_single _ _ _ Hf) as [Hin Hid]. apply N.eqb_eq in Hid.
  assert (Hin' : In p' (payments (snd (payment_save p' w)))).
  { cbn. apply in_map_iff. exists p. split; [|assumption].
    change (p_id p') with (p_id p). now rewrite N.eqb_refl. }
  set (w1 := snd (payment_save p' w)) in *.
  change (payment_save p' w) with (Ret tt, w1). cbn beta iota.
  destruct (p_status p' =? "completed") eqn:Hst.
  - apply String.eqb_eq in Hst.
    unfold payment_enrollment.
    change (enrollments w1) with (enrollments w).
    destruct (find _ (enrollments w)) as [e|] eqn:He;
      [|now apply payment_only with p'].
    destruct (e_status e =? "active"); cbn [negb];
      [now apply payment_only with p'|].
    change (enrollment_save (with_e_status "active" e) w1)
      with (Ret tt, snd (enrollment_save (with_e_status "active" e) w1)).
    cbn beta iota.
    apply payment_then_enrollment with p' (with_e_status "active" e).
    + cbn. now rewrite <- app_assoc.
    + assumption.
    + simpl. apply find_some in He. destruct He as [_ He].
      symmetry. now apply N.eqb_eq.
    + exact Hin'.
  - now apply payment_only with p'.
Qed.

End WriteOrder.

(** C8.  In the webhook, in the callback and in the manual correction of a
    payment, the trace of writes of the view never holds the save of an
    enrollment as active without, before it, the save of a payment of that
    enrollment as completed; and that payment is in the table when the view
    ends. *)
Theorem activation_follows_completion
  (X : Externals) (request : request) (payment_id : N) (w : world) :
  activation_after_completion w (snd (fedapay_webhook request w))
  /\ activation_after_completion w (snd (fedapay_callback request w))
  /\ activation_after_completion w
       (snd (manager_update_payment request payment_id w)).
Proof.
  split; [|split]; apply reconciliation_ordered.
  - apply webhook_reconciliation.
  - apply callback_reconciliation.
  - apply manager_reconciliation.
Qed.

Lemma activation_follows_completion_witness :
  let request := demo_post approved_body in
  activation_after_completion demo_world
    (snd (@fedapay_webhook demo request demo_world))
  /\ activation_after_completion demo_world
       (snd (@fedapay_callback demo (back_from_gateway "tx_1") demo_world))
  /\ activation_after_completion demo_world
       (snd (manager_update_payment
               {| method := "POST"; body := ""; x_fedapay_signature := None;
                  GET := []; user := 1;
                  POST := {| f_amount := Some 500000%Z;
                             f_payment_method := "cash";
                             f_status := "completed";
                             f_transaction_id := "tx_1"; f_notes := "" |} |}
               1 demo_world)).
Proof.
  intros request.
  destruct (activation_follows_completion demo request 1 demo_world)
    as [H1 _].
  destruct (activation_follows_completion demo (back_from_gateway "tx_1") 1
              demo_world) as [_ [H2 _]].
  destruct (activation_follows_completion demo
              {| method := "POST"; body := ""; x_fedapay_signature := None;
                 GET := []; user := 1;
                 POST := {| f_amount := Some 500000%Z;
                            f_payment_method := "cash";
                            f_status := "completed";
                            f_transaction_id := "tx_1"; f_notes := "" |} |}
              1 demo_world) as [_ [_ H3]].
  split; [exact H1 | split; [exact H2 | exact H3]].
Defined.

(** ** Transaction initiation *)

Section Initiation.
Context {X : Externals}.

(** The closed form of a POST to [student_make_payment] once the gateway
    has created the transaction: the pending row is inserted, then the link
    is resolved. *)
Lemma student_make_payment_run
  (request : request) (enrollment_id : N) (w : world)
  (e : Enrollment) (c : Course) (new_tx tx_id : pyval) :
  method request = "POST" ->
  filter (fun e => N.eqb (e_id e) enrollment_id
                   && N.eqb (e_student e) (user request)) (enrollments w) = [e] ->
  find (fun c => N.eqb (c_id c) (e_course e)) (courses w) = Some c ->
  create_transaction (user request) (Z.quot (c_fee c) 100)
    ("Paiement IFRI : " ++ c_name c) = Ret new_tx ->
  getattr new_tx "id" = Ret tx_id ->
  existsb (has_tid (py_str tx_id)) (payments w) = false ->
  let row := pending_payment w e c (py_str tx_id) in
  let w1 :=
    snd (session_set "last_enrollment_id" (PInt (Z.of_N (e_id e)))
           (snd (session_set "last_fedapay_tx_id" (PStr (py_str tx_id))
                   (snd (payment_create e (c_fee c) (py_str tx_id) "pending" w))))) in
  let failed (w2 : world) :=
    (Ret (Redirect "student_dashboard"),
     snd (message "error" UNAVAILABLE
            (snd (log "ERROR" "ECHEC TUNNEL PAIEMENT" w2)))) in
  payments w1 = (payments w ++ [row])%list
  /\ writes w1 = (writes w ++ [PaymentInserted row])%list
  /\ flashes w1 = flashes w
  /\ student_make_payment request enrollment_id w
     = match obind (get_transaction_link tx_id) redirect_url_of with
       | Exc _ => failed w1
       | Ret u =>
           if truthy u then
             match resolve_url u with
             | Ret url =>
                 (Ret (RedirectTo url),
                  snd (log "INFO" "TUNNEL IFRI : Redirection" w1))
             | Exc _ => failed (snd (log "INFO" "TUNNEL IFRI : Redirection" w1))
             end
           else failed w1
       end.
Proof.
  intros Hm He Hc Hg Hid Hfresh row w1 failed.
  assert (Hcreate : payment_create e (c_fee c) (py_str tx_id) "pending" w
                    = (Ret row,
                       add_write (PaymentInserted row)
                         (set_payments (payments w ++ [row]) w))).
  { unfold payment_create. now rewrite Hfresh. }
  subst w1. rewrite Hcreate.
  split; [reflexivity|]. split; [reflexivity|]. split; [reflexivity|].
  unfold student_make_payment.
  unfold bind at 1. unfold get_enrollment_or_404. rewrite He.
  unfold bind at 1. unfold enrollment_course. rewrite Hc.
  rewrite Hm. cbn [String.eqb Ascii.eqb Bool.eqb].
  unfold try_except, bind, lift, ret, raise. rewrite Hg, Hid, Hcreate.
  cbn beta iota.
  unfold obind.
  destruct (get_transaction_link tx_id) as [token|err]; [|reflexivity].
  destruct (redirect_url_of token) as [u|err]; [|reflexivity].
  destruct (truthy u); [|reflexivity].
  cbn beta iota.
  destruct (resolve_url u); reflexivity.
Qed.

End Initiation.

(** C6, as the code has it.  The redirect URL of a mapping is its first
    true value among the keys [url], [payment_link], [link], in that order;
    the one of a token object is its first true attribute among
    [payment_link], [url], [link], in that order, and without one, when the
    object has a [model_dump], the first true value of the dump among [url],
    [payment_link], [link].  On a POST for an enrollment of the requester,
    once the gateway has created a transaction whose identifier no payment
    row carries, exactly one payment row is inserted, pending, for the fee
    of the course and tagged with that identifier, before the link is
    asked for: it is there whether the user is redirected to the resolved
    URL or, no field holding a URL, the initiation fails with an error
    message and a redirection to the dashboard. *)
Theorem transaction_initiation (X : Externals) :
  (forall l,
     redirect_url_of (PDict l)
     = Ret (first_truthy [or_none (assoc "url" l);
                          or_none (assoc "payment_link" l);
                          or_none (assoc "link" l)]))
  /\ (forall attrs dump,
        let by_attr :=
          first_truthy [or_none (assoc "payment_link" attrs);
                        or_none (assoc "url" attrs);
                        or_none (assoc "link" attrs)] in
        redirect_url_of (PObj attrs dump)
        = match dump with
          | None => Ret by_attr
          | Some d =>
              if truthy by_attr then Ret by_attr
              else match d with
                   | PDict l =>
                       Ret (first_truthy [or_none (assoc "url" l);
                                          or_none (assoc "payment_link" l);
                                          or_none (assoc "link" l)])
                   | _ => Exc AttributeError
                   end
          end)
  /\ (forall (request : request) (enrollment_id : N) (w : world)
             (e : Enrollment) (c : Course) (new_tx tx_id : pyval),
        method request = "POST" ->
        filter (fun e => N.eqb (e_id e) enrollment_id
                         && N.eqb (e_student e) (user request))
               (enrollments w) = [e] ->
        find (fun c => N.eqb (c_id c) (e_course e)) (courses w) = Some c ->
        create_transaction (user request) (Z.quot (c_fee c) 100)
          ("Paiement IFRI : " ++ c_name c) = Ret new_tx ->
        getattr new_tx "id" = Ret tx_id ->
        existsb (has_tid (py_str tx_id)) (payments w) = false ->
        let r := fst (serve (student_make_payment request enrollment_id) w) in
        let w' := snd (serve (student_make_payment request enrollment_id) w) in
        let row := pending_payment w e c (py_str tx_id) in
        payments w' = (payments w ++ [row])%list
        /\ writes w' = (writes w ++ [PaymentInserted row])%list
        /\ (forall token u url,
              get_transaction_link tx_id = Ret token ->
              redirect_url_of token = Ret u -> truthy u = true ->
              resolve_url u = Ret url -> r = RedirectTo url)
        /\ (forall token u,
              get_transaction_link tx_id = Ret token ->
              redirect_url_of token = Ret u -> truthy u = false ->
              r = Redirect "student_dashboard"
              /\ flashes w' = (flashes w ++ [("error", UNAVAILABLE)])%list)).
Proof.
  split; [|split].
  - intros l. unfold redirect_url_of. cbn [isinstance_dict dict_get obind].
    unfold or_else, first_truthy.
    destruct (truthy (or_none (assoc "url" l))); [reflexivity|].
    destruct (truthy (or_none (assoc "payment_link" l))); reflexivity.
  - intros attrs dump by_attr. subst by_attr.
    unfold redirect_url_of. cbn [isinstance_dict getattr_or_none].
    unfold first_truthy.
    destruct dump as [d|].
    + destruct (truthy (or_none (assoc "payment_link" attrs))) eqn:E1;
        [now rewrite E1|].
      destruct (truthy (or_none (assoc "url" attrs))) eqn:E2;
        [now rewrite E2|].
      destruct (truthy (or_none (assoc "link" attrs))) eqn:E3;
        [reflexivity|].
      destruct d; try reflexivity.
      cbn [dict_get obind]. unfold or_else.
      destruct (truthy (or_none (assoc "url" entries))); [reflexivity|].
      destruct (truthy (or_none (assoc "payment_link" entries))); reflexivity.
    + destruct (truthy (or_none (assoc "payment_link" attrs))); [reflexivity|].
      destruct (truthy (or_none (assoc "url" attrs))); reflexivity.
  - intros request enrollment_id w e c new_tx tx_id Hm He Hc Hg Hid Hfresh
           r w' row.
    destruct (student_make_payment_run request enrollment_id w e c new_tx tx_id
                Hm He Hc Hg Hid Hfresh) as [Hp [Hw [Hfl Hrun]]].
    subst r w'. unfold serve. rewrite Hrun. clear Hrun.
    set (w1 := snd (session_set "last_enrollment_id" _ _)) in *.
    unfold obind.
    destruct (get_transaction_link tx_id) as [token|err] eqn:Et.
    + destruct (redirect_url_of token) as [u|err] eqn:Eu.
      * destruct (truthy u) eqn:Hu.
        -- destruct (resolve_url u) as [url|err] eqn:Hr; cbn [fst snd];
             (split; [exact Hp|]); (split; [exact Hw|]); split;
             intros token' u' **;
             assert (token' = token) by congruence; subst token';
             assert (u' = u) by congruence; subst u'; congruence.
        -- cbn [fst snd]. split; [exact Hp|]. split; [exact Hw|]. split.
           ++ intros token' u' url' Ht' Hu' Htr' _.
              assert (token' = token) by congruence. subst token'.
              assert (u' = u) by congruence. subst u'. congruence.
           ++ intros token' u' _ _ _. split; [reflexivity|].
              change (flashes w1 ++ [("error", UNAVAILABLE)]
                      = flashes w ++ [("error", UNAVAILABLE)])%list.
              now rewrite Hfl.
      * cbn [fst snd]. split; [exact Hp|]. split; [exact Hw|].
        split; intros token' u' **;
          assert (token' = token) by congruence; subst token'; congruence.
    + cbn [fst snd]. split; [exact Hp|]. split; [exact Hw|].
      split; intros token' u' **; congruence.
Qed.

(** The example of the spec: a fee of 5000, a gateway that answers with the
    transaction [tx_1] and then the link [https://pay.example/tx_1]. *)
Lemma transaction_initiation_witness :
  let request := post "" None in
  fst (serve (@student_make_payment demo request 7) fresh_world)
  = RedirectTo "https://pay.example/tx_1"
  /\ payments (snd (serve (@student_make_payment demo request 7) fresh_world))
     = [{| p_id := 1; p_enrollment := 7; p_amount := 500000; p_method := "";
           p_transaction_id := "tx_1"; p_status := "pending"; p_notes := "" |}].
Proof.
  intros request.
  destruct (transaction_initiation demo) as [_ [_ H]].
  destruct (H request 7%N fresh_world
              {| e_id := 7; e_student := 3; e_course := 2; e_status := "pending" |}
              {| c_id := 2; c_name := "Rocq"; c_fee := 500000 |}
              (PObj [("id", PStr "tx_1")] None) (PStr "tx_1")
              eq_refl eq_refl eq_refl eq_refl eq_refl eq_refl)
    as [Hp [_ [Hr _]]].
  split.
  - exact (Hr (PDict [("token", PStr "tok");
                      ("url", PStr "https://pay.example/tx_1")])
              (PStr "https://pay.example/tx_1") "https://pay.example/tx_1"
              eq_refl eq_refl eq_refl eq_refl).
  - exact Hp.
Defined.

(** C6 as it is worded fails for a token object: with the attributes
    [payment_link] and [url] both set, the code takes [payment_link], the
    order of the spec takes [url]. *)
Lemma redirect_url_order_counterexample :
  redirect_url_of two_links = Ret (PStr "https://pay.example/a")
  /\ redirect_url_as_specified two_links = PStr "https://pay.example/b"
  /\ ~ url_order_is_fixed.
Proof.
  split; [reflexivity | split; [reflexivity|]].
  intros H. specialize (H two_links). discriminate H.
Qed.

(** ** More runs in the demo setting *)

(** A status of the event that is set and is not [approved] hides an
    approved entity: the event is acknowledged and nothing is reconciled. *)
Example declined_event_with_approved_entity :
  let payload :=
    dq "{'name':'transaction.declined','status':'declined','entity':{'id':'tx_1','status':'approved'}}" in
  serve (@fedapay_webhook demo (demo_post payload)) demo_world
  = (JsonResponse 200 "received", demo_world).
Proof. vm_compute. reflexivity. Qed.

(** A body altered after it was signed is refused. *)
Example tampered_body_refused :
  let header := signed_header demo_secret 1700000000 approved_body in
  fst (serve (@fedapay_webhook demo (post unknown_body (Some header))) demo_world)
  = JsonResponse 403 "forbidden".
Proof. vm_compute. reflexivity. Qed.

(** The signature may come in capitals, in quotes and after a semicolon. *)
Example tolerant_header_accepted :
  let header :=
    "t=1700000000; v1=" ++ String Py.dquote
      (string_of_list_ascii
         (map (fun c => if Py.in_range 97 102 c
                        then ascii_of_N (Py.code c - 32) else c)
              (list_ascii_of_string
                 (Hmac.hexdigest demo_secret ("1700000000." ++ approved_body)))))
      ++ String Py.dquote "" in
  fst (serve (@fedapay_webhook demo (post approved_body (Some header))) demo_world)
  = JsonResponse 200 "received".
Proof. vm_compute. reflexivity. Qed.

(** Anything but a POST is refused before the signature is looked at. *)
Example get_refused :
  serve (@fedapay_webhook demo
           {| method := "GET"; body := ""; x_fedapay_signature := None;
              GET := []; user := 3;
              POST := POST (post "" None) |}) demo_world
  = (HttpResponseForbidden, demo_world).
Proof. reflexivity. Qed.

(** The callback for [tx_1], which the gateway reports approved. *)
Example callback_demo :
  let request := back_from_gateway "tx_1" in
  let w' := snd (serve (@fedapay_callback demo request) demo_world) in
  fst (serve (@fedapay_callback demo request) demo_world)
  = Redirect "student_view_courses"
  /\ map p_status (payments w') = ["completed"]
  /\ map e_status (enrollments w') = ["active"]
  /\ flashes w' = [("success", CONFIRMED)]
  /\ journal w' = [].
Proof. vm_compute. repeat split. Qed.

(** The callback for a transaction the gateway does not know: the error is
    logged, the user is told the payment is confirmed, no row changes. *)
Example callback_unknown_demo :
  let request :=
    {| method := "GET"; body := ""; x_fedapay_signature := None;
       GET := [("transaction_id", "tx_9")]; user := 3;
       POST := POST (post "" None) |} in
  serve (@fedapay_callback demo request) demo_world
  = (Redirect "student_view_courses",
     {| payments := payments demo_world; enrollments := enrollments demo_world;
        courses := courses demo_world; session := [];
        flashes := [("success", CONFIRMED)];
        journal := [("WARNING", "CALLBACK CHECK")]; writes := [] |}).
Proof. vm_compute. reflexivity. Qed.

(** The manager marks the payment of the demo world completed by hand. *)
Example manager_demo :
  let request :=
    {| method := "POST"; body := ""; x_fedapay_signature := None; GET := [];
       user := 1;
       POST := {| f_amount := Some 500000%Z; f_payment_method := "cash";
                  f_status := "completed"; f_transaction_id := "tx_1";
                  f_notes := "" |} |} in
  let w' := snd (serve (manager_update_payment request 1) demo_world) in
  fst (serve (manager_update_payment request 1) demo_world)
  = Redirect "manager_view_payments"
  /\ map p_status (payments w') = ["completed"]
  /\ map e_status (enrollments w') = ["active"]
  /\ map (fun x => match x with
                   | PaymentInserted _ => "insert payment"
                   | PaymentSaved _ => "save payment"
                   | EnrollmentSaved _ => "save enrollment"
                   end) (writes w')
     = ["save payment"; "save enrollment"].
Proof. vm_compute. repeat split. Qed.

(** A gateway answer without a link: the pending row stays and the
    initiation fails. *)
Example initiation_without_link :
  let X := {| FEDAPAY_AUTH_KEY := @FEDAPAY_AUTH_KEY demo; DEBUG := false;
              json_loads := Json.loads; py_repr := @py_repr demo;
              resolve_url := resolve_plain_url;
              fedapay_save_webhook_data := fun _ => Ret tt;
              create_transaction := @create_transaction demo;
              get_transaction_link := fun _ => Ret (PDict [("token", PStr "tok")]);
              get_transaction_by_fedapay_id :=
                @get_transaction_by_fedapay_id demo |} in
  let w' := snd (serve (@student_make_payment X (post "" None) 7) fresh_world) in
  fst (serve (@student_make_payment X (post "" None) 7) fresh_world)
  = Redirect "student_dashboard"
  /\ map p_transaction_id (payments w') = ["tx_1"]
  /\ map p_status (payments w') = ["pending"]
  /\ flashes w' = [("error", UNAVAILABLE)].
Proof. vm_compute. repeat split. Qed.

(** * Further properties of the code *)

(** ** A decimal numeral read back by [int] *)















(** ** A header written in the documented form *)










(** ** What the verification accepts, refuses and raises *)

















Section VerifyMore.
Context {X : Externals}.



End VerifyMore.






(** ** The answers of the webhook *)

Section WebhookAnswers.
Context {X : Externals}.


End WebhookAnswers.


(** ** Rows that keep their place *)















Section Frames.
Context {X : Externals}.




End Frames.





(** ** The payment tunnel *)

Section Tunnel.
Context {X : Externals}.






End Tunnel.





(** ** The manual correction *)












(** ** The callback after the callback, and after the tunnel *)

Section CallbackAgain.
Context {X : Externals}.










End CallbackAgain.





(** ** The two channels in either order *)

Section Converge.
Context {X : Externals}.
















End Converge.




(** ** The contents of a course *)






(** ** The masks of the debugging line *)







Example mask_of_a_header :
  _mask_signature_header (Some "t=1700000000,v1=0123456789abcdef")
  = Some "t=1700000000...89abcdef"
  /\ _mask_hash (Some "0123456789abcdef") = Some "0123456789abcdef"
  /\ _mask_hash (Some "0123456789abcdef0") = Some "01234567...9abcdef0".
Proof. vm_compute. repeat split. Qed.

(** ** The status of a transaction *)


